(** * LFU cache with LRU tie-breaking: a shallow embedding of
      [src/dict_cache.py] and [src/lfu_dict_cache.py] and the properties of
      its eviction engine.

    Python objects are mutated in place and raise exceptions.  Both effects
    are made explicit: every method is a computation in a state-and-exception
    monad whose outcome carries the result (a value or the exception raised),
    the state the object is left in (also when the call raised), and a ghost
    log that records each time [DictCache.__setitem__] takes its [popitem]
    branch. *)

From stdpp Require Import gmap strings list fin_maps sorting.

Local Open Scope Z_scope.

(** ** Exceptions, ghost events and the method monad *)

Inductive Exn :=
| KeyError
| IndexError
| StopIteration
| ValueError
| RuntimeError.

(** [PopOldest] is logged when [DictCache.__setitem__] runs
    [self.popitem(last=False)]. *)
Inductive Event := PopOldest.

Record Out (S A : Type) := MkOut {
  res : Exn + A;
  st : S;
  log : list Event
}.
Arguments MkOut {S A} _ _ _.
Arguments res {S A} _.
Arguments st {S A} _.
Arguments log {S A} _.

Definition M (S A : Type) : Type := S -> Out S A.

Definition ret {S A} (a : A) : M S A := fun s => MkOut (inr a) s [].

Definition raise {S A} (e : Exn) : M S A := fun s => MkOut (inl e) s [].

Definition bind {S A B} (m : M S A) (k : A -> M S B) : M S B :=
  fun s =>
    let o := m s in
    match res o with
    | inl e => MkOut (inl e) (st o) (log o)
    | inr a => let o' := k a (st o) in MkOut (res o') (st o') (log o ++ log o')
    end.

Definition gets {S A} (f : S -> A) : M S A := fun s => MkOut (inr (f s)) s [].

Definition modify {S} (f : S -> S) : M S unit := fun s => MkOut (inr tt) (f s) [].

Definition tell {S} (e : Event) : M S unit := fun s => MkOut (inr tt) s [e].

(** A fallible pure update of the state: nothing is changed when it raises. *)
Definition try_update {S A} (f : S -> Exn + (A * S)) : M S A :=
  fun s =>
    match f s with
    | inl e => MkOut (inl e) s []
    | inr (a, s') => MkOut (inr a) s' []
    end.

Notation "x <- m ;; k" := (bind m (fun x => k))
  (at level 100, m at next level, right associativity, only parsing).

(** ** Python's insertion-ordered [dict] / [OrderedDict]

    An association list in insertion order; keys are unique in every
    dictionary built with [setitem] from the empty one. *)

Module PyDict.
Section defs.
Context {K : Type} `{EqDecision K} {V : Type}.

Definition keys (d : list (K * V)) : list K := d.*1.

Definition len (d : list (K * V)) : Z := Z.of_nat (length d).

(** [key in d] *)
Definition contains (k : K) (d : list (K * V)) : bool :=
  bool_decide (k ∈ keys d).

(** [d[key]] *)
Fixpoint getitem (k : K) (d : list (K * V)) : Exn + V :=
  match d with
  | [] => inl KeyError
  | (k', v) :: d' => if decide (k' = k) then inr v else getitem k d'
  end.

(** [d[key] = value]: an existing key keeps its position, a new key is
    appended. *)
Fixpoint setitem (k : K) (v : V) (d : list (K * V)) : list (K * V) :=
  match d with
  | [] => [(k, v)]
  | (k', v') :: d' =>
      if decide (k' = k) then (k', v) :: d' else (k', v') :: setitem k v d'
  end.

Definition remove (k : K) (d : list (K * V)) : list (K * V) :=
  filter (λ kv, kv.1 ≠ k) d.

(** [del d[key]] *)
Definition delitem (k : K) (d : list (K * V)) : Exn + list (K * V) :=
  if contains k d then inr (remove k d) else inl KeyError.

(** [OrderedDict.move_to_end(key)] with [last=True] *)
Definition move_to_end (k : K) (d : list (K * V)) : Exn + list (K * V) :=
  match getitem k d with
  | inl e => inl e
  | inr v => inr (remove k d ++ [(k, v)])
  end.

(** [OrderedDict.popitem(last=False)]: the first pair is taken out and
    returned. *)
Definition popitem_first (d : list (K * V)) : Exn + ((K * V) * list (K * V)) :=
  match d with
  | [] => inl KeyError
  | kv :: d' => inr (kv, d')
  end.

(** *** Key iterators

    [iter(d)] is a live view of [d]: the iterator object remembers the size
    the dictionary had when it was made and how many keys it has yielded, and
    every [next] reads the dictionary as it is then.  A size that differs
    raises [RuntimeError] ("dictionary changed size during iteration"), and
    that state is sticky. *)

Record keyiter := MkIter {
  it_used : Z;
  it_pos : nat;
  it_live : bool
}.

Definition iter (d : list (K * V)) : keyiter :=
  {| it_used := len d; it_pos := 0; it_live := true |}.

Definition next (it : keyiter) (d : list (K * V)) : (Exn + K) * keyiter :=
  if it_live it then
    if it_used it =? len d then
      match d !! it_pos it with
      | Some (k, _) =>
          (inr k, {| it_used := it_used it; it_pos := S (it_pos it); it_live := true |})
      | None =>
          (inl StopIteration,
           {| it_used := it_used it; it_pos := it_pos it; it_live := false |})
      end
    else
      (inl RuntimeError,
       {| it_used := -1; it_pos := it_pos it; it_live := true |})
  else (inl StopIteration, it).

(** [list(it)] while the dictionary stays [d]: [next] until [StopIteration];
    any other exception propagates.  [None] only when the fuel runs out. *)
Fixpoint to_list (fuel : nat) (it : keyiter) (d : list (K * V))
  : option (Exn + list K) :=
  match fuel with
  | O => None
  | S fuel' =>
      match next it d with
      | (inr k, it') =>
          match to_list fuel' it' d with
          | Some (inr ks) => Some (inr (k :: ks))
          | r => r
          end
      | (inl StopIteration, _) => Some (inr [])
      | (inl e, _) => Some (inl e)
      end
  end.

End defs.
End PyDict.

(** ** [DictCache]: the bounded, touch-ordered map ([src/dict_cache.py]) *)

Module DictCache.
Section defs.
Context {K : Type} `{EqDecision K} {V : Type}.

Record t := Mk {
  maxsize : Z;
  od : list (K * V)
}.

Definition with_od (f : list (K * V) -> list (K * V)) (c : t) : t :=
  {| maxsize := maxsize c; od := f (od c) |}.

(** [DictCache(maxsize)] *)
Definition __init__ (maxsize : Z) : t := {| maxsize := maxsize; od := [] |}.

(** Methods inherited from [OrderedDict]. *)
Definition super_getitem (key : K) : M t V :=
  try_update (fun c =>
    match PyDict.getitem key (od c) with
    | inl e => inl e
    | inr v => inr (v, c)
    end).

Definition super_setitem (key : K) (value : V) : M t unit :=
  modify (with_od (PyDict.setitem key value)).

Definition move_to_end (key : K) : M t unit :=
  try_update (fun c =>
    match PyDict.move_to_end key (od c) with
    | inl e => inl e
    | inr d' => inr (tt, with_od (fun _ => d') c)
    end).

Definition popitem_first : M t (K * V) :=
  try_update (fun c =>
    match PyDict.popitem_first (od c) with
    | inl e => inl e
    | inr (kv, d') => inr (kv, with_od (fun _ => d') c)
    end).

Definition __delitem__ (key : K) : M t unit :=
  try_update (fun c =>
    match PyDict.delitem key (od c) with
    | inl e => inl e
    | inr d' => inr (tt, with_od (fun _ => d') c)
    end).

Definition __len__ : M t Z := gets (fun c => PyDict.len (od c)).

(** [next(iter(self))] *)
Definition first_key : M t K :=
  try_update (fun c =>
    match fst (PyDict.next (PyDict.iter (od c)) (od c)) with
    | inl e => inl e
    | inr k => inr (k, c)
    end).

(** The two overridden methods. *)
Definition __getitem__ (key : K) : M t V :=
  res <- super_getitem key ;;
  _ <- move_to_end key ;;
  ret res.

Definition __setitem__ (key : K) (value : V) : M t unit :=
  _ <- super_setitem key value ;;
  _ <- move_to_end key ;;
  n <- __len__ ;;
  size <- gets maxsize ;;
  if size <? n then
    _ <- tell PopOldest ;;
    _ <- popitem_first ;;
    ret tt
  else ret tt.

(** A caller's sequence of writes to one map; an exception would be caught
    by the caller, who goes on with the map as the call left it. *)
Fixpoint set_all (kvs : list (K * V)) (c : t) : t :=
  match kvs with
  | [] => c
  | (k, v) :: kvs' => set_all kvs' (st (__setitem__ k v c))
  end.

End defs.
Arguments t : clear implicits.
End DictCache.

(** ** [SortedDict] from [sortedcontainers], keyed by frequency

    A finite map on [Z]; position 0 of the sorted view is the item with the
    smallest key. *)

Module SortedDict.
Section defs.
Context {B : Type}.

Definition contains (f : Z) (m : gmap Z B) : bool :=
  bool_decide (is_Some (m !! f)).

Definition getitem (f : Z) (m : gmap Z B) : Exn + B :=
  match m !! f with
  | Some b => inr b
  | None => inl KeyError
  end.

Definition delitem (f : Z) (m : gmap Z B) : Exn + gmap Z B :=
  match m !! f with
  | Some _ => inr (delete f m)
  | None => inl KeyError
  end.

Definition min_item (acc : option (Z * B)) (fb : Z * B) : option (Z * B) :=
  match acc with
  | None => Some fb
  | Some (f', _) => if fb.1 <? f' then Some fb else acc
  end.

(** [peekitem(0)] *)
Definition peekitem0 (m : gmap Z B) : Exn + (Z * B) :=
  match foldl min_item None (map_to_list m) with
  | Some fb => inr fb
  | None => inl IndexError
  end.

End defs.
End SortedDict.

(** ** [LfuDictCache] ([src/lfu_dict_cache.py]) *)

Module LfuDictCache.
Section defs.
Context {K : Type} `{Countable K} {V : Type}.

Abbreviation LruCache := (DictCache.t K unit).

Record t := Mk {
  _max_size : Z;
  _values : list (K * V);
  _freq : gmap K Z;
  _freq_to_lru : gmap Z LruCache
}.

Definition set_values (f : list (K * V) -> list (K * V)) (s : t) : t :=
  {| _max_size := _max_size s; _values := f (_values s);
     _freq := _freq s; _freq_to_lru := _freq_to_lru s |}.

Definition set_freq (f : gmap K Z -> gmap K Z) (s : t) : t :=
  {| _max_size := _max_size s; _values := _values s;
     _freq := f (_freq s); _freq_to_lru := _freq_to_lru s |}.

Definition set_freq_to_lru (f : gmap Z LruCache -> gmap Z LruCache) (s : t) : t :=
  {| _max_size := _max_size s; _values := _values s;
     _freq := _freq s; _freq_to_lru := f (_freq_to_lru s) |}.

(** A bucket object is referenced only from [_freq_to_lru], under its
    frequency; a method call on a bucket reference obtained from
    [_freq_to_lru[freq]] therefore runs on the object stored there and its
    mutation is visible there. *)
Definition on_bucket {A} (freq : Z) (m : M LruCache A) : M t A :=
  fun s =>
    match _freq_to_lru s !! freq with
    | None => raise KeyError s
    | Some b =>
        let o := m b in
        MkOut (res o) (set_freq_to_lru (insert freq (st o)) s) (log o)
    end.

Definition __init__ (max_size : Z) : Exn + t :=
  if max_size <? 0 then inl ValueError
  else inr {| _max_size := max_size; _values := [];
              _freq := ∅; _freq_to_lru := ∅ |}.

(** ---------- internal helpers ---------- *)

(** [self._get_lru(freq)], also the plain [self._freq_to_lru[freq]] *)
Definition _get_lru (freq : Z) : M t LruCache :=
  try_update (fun s =>
    match SortedDict.getitem freq (_freq_to_lru s) with
    | inl e => inl e
    | inr b => inr (b, s)
    end).

(** [self._freq[key]] *)
Definition freq_getitem (key : K) : M t Z :=
  try_update (fun s =>
    match _freq s !! key with
    | Some f => inr (f, s)
    | None => inl KeyError
    end).

(** [del self._freq[key]] *)
Definition freq_delitem (key : K) : M t unit :=
  try_update (fun s =>
    match _freq s !! key with
    | Some _ => inr (tt, set_freq (delete key) s)
    | None => inl KeyError
    end).

(** [del self._values[key]] *)
Definition values_delitem (key : K) : M t unit :=
  try_update (fun s =>
    match PyDict.delitem key (_values s) with
    | inl e => inl e
    | inr d' => inr (tt, set_values (fun _ => d') s)
    end).

(** [lru] is the object at [self._freq_to_lru[freq]] at both call sites. *)
Definition _clean_freq_bucket (freq : Z) : M t unit :=
  n <- on_bucket freq DictCache.__len__ ;;
  if n =? 0 then
    try_update (fun s =>
      match SortedDict.delitem freq (_freq_to_lru s) with
      | inl e => inl e
      | inr m' => inr (tt, set_freq_to_lru (fun _ => m') s)
      end)
  else ret tt.

Definition _remove_key (key : K) : M t unit :=
  freq <- freq_getitem key ;;
  _ <- _get_lru freq ;;
  _ <- values_delitem key ;;
  _ <- freq_delitem key ;;
  _ <- on_bucket freq (DictCache.__delitem__ key) ;;
  _clean_freq_bucket freq.

Definition _add_key_to_freq (key : K) (freq : Z) : M t unit :=
  present <- gets (fun s => SortedDict.contains freq (_freq_to_lru s)) ;;
  _ <- (if present then ret tt
        else
          size <- gets _max_size ;;
          modify (set_freq_to_lru (insert freq (DictCache.__init__ size)))) ;;
  on_bucket freq (DictCache.__setitem__ key tt).

Definition _evict : M t unit :=
  item <- try_update (fun s =>
            match SortedDict.peekitem0 (_freq_to_lru s) with
            | inl e => inl e
            | inr fb => inr (fb, s)
            end) ;;
  key <- on_bucket item.1 DictCache.first_key ;;
  _remove_key key.

Definition _increase_freq (key : K) : M t unit :=
  old_freq <- freq_getitem key ;;
  let new_freq := old_freq + 1 in
  _ <- _get_lru old_freq ;;
  _ <- on_bucket old_freq (DictCache.__delitem__ key) ;;
  _ <- _clean_freq_bucket old_freq ;;
  _ <- _add_key_to_freq key new_freq ;;
  modify (set_freq (insert key new_freq)).

Definition _is_full : M t bool :=
  gets (fun s => _max_size s <=? PyDict.len (_values s)).

Definition _set_value (key : K) (value : V) : M t unit :=
  modify (set_values (PyDict.setitem key value)).


(** ---------- dict-like API ---------- *)

Definition __getitem__ (key : K) : M t V :=
  value <- try_update (fun s =>
             match PyDict.getitem key (_values s) with
             | inl e => inl e
             | inr v => inr (v, s)
             end) ;;
  _ <- _increase_freq key ;;
  ret value.

Definition __setitem__ (key : K) (value : V) : M t unit :=
  size <- gets _max_size ;;
  if size =? 0 then ret tt
  else
    present <- gets (fun s => PyDict.contains key (_values s)) ;;
    if present then
      _ <- _set_value key value ;;
      _increase_freq key
    else
      full <- _is_full ;;
      _ <- (if full then _evict else ret tt) ;;
      _ <- _set_value key value ;;
      _ <- modify (set_freq (insert key 1)) ;;
      _add_key_to_freq key 1.

Definition __delitem__ (key : K) : M t unit := _remove_key key.

(** [iter(self._values)]: the iterator object; it is advanced against the
    cache as it is at that later time. *)
Definition __iter__ (s : t) : PyDict.keyiter := PyDict.iter (_values s).

Definition __next__ (it : PyDict.keyiter) (s : t) : (Exn + K) * PyDict.keyiter :=
  PyDict.next it (_values s).

(** [list(it)] while the cache is in state [s]. *)
Definition to_list (it : PyDict.keyiter) (s : t) : option (Exn + list K) :=
  PyDict.to_list (S (length (_values s))) it (_values s).

Definition __len__ (s : t) : Z := PyDict.len (_values s).

(** ** A caller's sequence of public operations

    The caller catches whatever an operation raises and goes on with the
    cache as the operation left it. *)

Inductive Op :=
| Get (key : K)
| Set_ (key : K) (value : V)
| Del (key : K).

Definition step (op : Op) (s : t) : t :=
  match op with
  | Get key => st (__getitem__ key s)
  | Set_ key value => st (__setitem__ key value s)
  | Del key => st (__delitem__ key s)
  end.

Definition step_log (op : Op) (s : t) : list Event :=
  match op with
  | Get key => log (__getitem__ key s)
  | Set_ key value => log (__setitem__ key value s)
  | Del key => log (__delitem__ key s)
  end.

Fixpoint run (ops : list Op) (s : t) : t :=
  match ops with
  | [] => s
  | op :: ops' => run ops' (step op s)
  end.

Fixpoint run_log (ops : list Op) (s : t) : list Event :=
  match ops with
  | [] => []
  | op :: ops' => step_log op s ++ run_log ops' (step op s)
  end.

(** States a caller can observe of a cache constructed with [capacity]. *)
Definition reachable (capacity : Z) (s : t) : Prop :=
  ∃ s0 ops, __init__ capacity = inr s0 ∧ s = run ops s0.

(** ** Well-formed states

    The structural invariant of the three maps: the count map has exactly
    the keys of the value map, every key sits once in the bucket of its count
    and in no other, no bucket is empty, and the capacity is respected. *)

(** [key] is a member of the bucket of [freq]. *)
Definition in_bucket (m : gmap Z LruCache) (freq : Z) (key : K) : Prop :=
  ∃ b, m !! freq = Some b ∧ key ∈ PyDict.keys (DictCache.od b).

(** What is asked of a single bucket: built with the cache's capacity,
    no key twice, not empty. *)
Definition bucket_ok (size : Z) (b : LruCache) : Prop :=
  DictCache.maxsize b = size ∧
  NoDup (PyDict.keys (DictCache.od b)) ∧
  DictCache.od b ≠ [].

Record wf (s : t) : Prop := Wf {
  wf_capacity : 0 ≤ _max_size s;
  wf_len : PyDict.len (_values s) ≤ _max_size s;
  wf_values : NoDup (PyDict.keys (_values s));
  wf_freq : ∀ k, k ∈ PyDict.keys (_values s) ↔ is_Some (_freq s !! k);
  wf_count : ∀ k f, _freq s !! k = Some f → 1 ≤ f;
  wf_index : ∀ k f, _freq s !! k = Some f ↔ in_bucket (_freq_to_lru s) f k;
  wf_bucket : ∀ f b, _freq_to_lru s !! f = Some b → bucket_ok (_max_size s) b
}.

(** The frequency index after [key] has left the bucket of [freq], the
    bucket being dropped when that empties it. *)
Definition bucket_without (key : K) (freq : Z) (m : gmap Z LruCache)
  : gmap Z LruCache :=
  match m !! freq with
  | None => m
  | Some b =>
      let d := PyDict.remove key (DictCache.od b) in
      if decide (d = []) then delete freq m
      else <[freq := DictCache.Mk (DictCache.maxsize b) d]> m
  end.

(** The frequency index after [key] has been put at the most recent end of
    the bucket of [freq], made with [size] when missing. *)
Definition bucket_with (key : K) (freq size : Z) (m : gmap Z LruCache)
  : gmap Z LruCache :=
  let b := default (DictCache.__init__ size) (m !! freq) in
  <[freq := DictCache.Mk (DictCache.maxsize b)
              (PyDict.remove key (DictCache.od b) ++ [(key, tt)])]> m.

(** The state after [key], of count [freq], has been removed. *)
Definition removed (key : K) (freq : Z) (s : t) : t :=
  {| _max_size := _max_size s;
     _values := PyDict.remove key (_values s);
     _freq := delete key (_freq s);
     _freq_to_lru := bucket_without key freq (_freq_to_lru s) |}.

(** The state after [key], of count [freq], has been promoted. *)
Definition promoted (key : K) (freq : Z) (s : t) : t :=
  {| _max_size := _max_size s;
     _values := _values s;
     _freq := <[key := freq + 1]> (_freq s);
     _freq_to_lru :=
       bucket_with key (freq + 1) (_max_size s)
         (bucket_without key freq (_freq_to_lru s)) |}.

(** The state after the new [key] has been stored at count 1. *)
Definition inserted (key : K) (value : V) (s : t) : t :=
  {| _max_size := _max_size s;
     _values := _values s ++ [(key, value)];
     _freq := <[key := 1]> (_freq s);
     _freq_to_lru := bucket_with key 1 (_max_size s) (_freq_to_lru s) |}.

(** ** Touch times

    Operations are numbered from 1 in the order the caller issues them;
    [last_touch ops key] is the number of the last [get] or [set] that names
    [key], and 0 when there is none. *)

Definition names (key : K) (op : Op) : bool :=
  match op with
  | Get k => bool_decide (k = key)
  | Set_ k _ => bool_decide (k = key)
  | Del _ => false
  end.

Fixpoint last_touch_from (i acc : nat) (ops : list Op) (key : K) : nat :=
  match ops with
  | [] => acc
  | op :: ops' =>
      last_touch_from (S i) (if names key op then S i else acc) ops' key
  end.

Definition last_touch (ops : list Op) (key : K) : nat :=
  last_touch_from 0 0 ops key.

(** Every bucket lists its keys in increasing order of [time]. *)
Definition index_sorted (time : K -> nat) (m : gmap Z LruCache) : Prop :=
  ∀ f b, m !! f = Some b →
    StronglySorted (λ k1 k2, (time k1 < time k2)%nat)
      (PyDict.keys (DictCache.od b)).

(** Every bucket lists its keys from the least to the most recently
    touched. *)
Definition recency_ordered (ops : list Op) (s : t) : Prop :=
  index_sorted (last_touch ops) (_freq_to_lru s).

(** [op] is a [get] or a [set] of one of [present]. *)
Definition touches (present : list K) (op : Op) : Prop :=
  match op with
  | Get k => k ∈ present
  | Set_ k _ => k ∈ present
  | Del _ => False
  end.

(** The reading of [__iter__] as a snapshot: whatever one operation does to
    the cache after the call, consuming the iterator gives the keys the
    cache had at the call. *)
Definition iter_is_snapshot (size : Z) : Prop :=
  ∀ s op, reachable size s →
    to_list (__iter__ s) (step op s)
    = Some (inr (PyDict.keys (_values s))).

End defs.
Arguments t : clear implicits.
Arguments t _ {_ _} _.
Arguments Op : clear implicits.
End LfuDictCache.

(** ** The capacity-3 scenarios of the test suite *)

Definition cache3 : LfuDictCache.t string Z :=
  LfuDictCache.Mk 3 [] ∅ ∅.

Definition prepare : list (LfuDictCache.Op string Z) :=
  [LfuDictCache.Set_ "a" 1; LfuDictCache.Set_ "b" 2; LfuDictCache.Set_ "c" 3]%string.

(** The cache every test starts from: a, b and c stored, capacity reached. *)
Definition full3 : LfuDictCache.t string Z := LfuDictCache.run prepare cache3.

(** A cache holding the single key a. *)
Definition one_key : LfuDictCache.t string Z :=
  LfuDictCache.run [LfuDictCache.Set_ "a"%string 1] cache3.

Definition scenario2 : list (LfuDictCache.Op string Z) :=
  prepare ++
  [LfuDictCache.Set_ "a" 10; LfuDictCache.Set_ "a" 40;
   LfuDictCache.Get "c"; LfuDictCache.Get "b"; LfuDictCache.Set_ "d" 4]%string.

(** ** A caller's sequence of operations on one [DictCache] *)

Module DictCacheUse.
Section defs.
Context {K : Type} `{EqDecision K} {V : Type}.

Inductive Op :=
| Get (key : K)
| Set_ (key : K) (value : V)
| Del (key : K).

Definition step (op : Op) (c : DictCache.t K V) : DictCache.t K V :=
  match op with
  | Get key => st (DictCache.__getitem__ key c)
  | Set_ key value => st (DictCache.__setitem__ key value c)
  | Del key => st (DictCache.__delitem__ key c)
  end.

Fixpoint run (ops : list Op) (c : DictCache.t K V) : DictCache.t K V :=
  match ops with
  | [] => c
  | op :: ops' => run ops' (step op c)
  end.

(** [key] is stored with [value], with at most [j] entries behind it. *)
Definition recent_within (j : nat) (key : K) (value : V) (c : DictCache.t K V)
  : Prop :=
  ∃ l r, DictCache.od c = l ++ (key, value) :: r ∧
         (key ∉ PyDict.keys l) ∧ (key ∉ PyDict.keys r) ∧ (length r ≤ j)%nat.

End defs.
Arguments Op : clear implicits.
End DictCacheUse.

(** [set] of each pair in turn. *)
Definition set_each {K V : Type} (kvs : list (K * V)) : list (LfuDictCache.Op K V) :=
  map (λ kv, LfuDictCache.Set_ kv.1 kv.2) kvs.

(** The keys of all buckets of a frequency index, and their number. *)
Definition bucket_keys {K : Type} (m : gmap Z (DictCache.t K unit)) : list K :=
  foldr (λ fb acc, PyDict.keys (DictCache.od fb.2) ++ acc) [] (map_to_list m).

Definition bucket_total {K : Type} (m : gmap Z (DictCache.t K unit)) : nat :=
  foldr (λ fb n, (length (DictCache.od fb.2) + n)%nat) 0%nat (map_to_list m).

(** The operations of [ops] that read or write [key]. *)
Definition touches_of {K V : Type} `{Countable K}
    (key : K) (ops : list (LfuDictCache.Op K V)) : list (LfuDictCache.Op K V) :=
  filter (λ op, LfuDictCache.names key op = true) ops.

(** ** More caches of the kind the test suite builds *)

(** A full [DictCache] of three entries. *)
Definition lru3 : DictCache.t string Z :=
  DictCacheUse.run
    [DictCacheUse.Set_ "a" 1; DictCacheUse.Set_ "b" 2; DictCacheUse.Set_ "c" 3]%string
    (DictCache.__init__ 3).

(** The full cache after a has been read once. *)
Definition read_a : list (LfuDictCache.Op string Z) :=
  prepare ++ [LfuDictCache.Get "a"%string].

(** The full cache after each of its keys has been read once. *)
Definition read_all : list (LfuDictCache.Op string Z) :=
  prepare ++
  [LfuDictCache.Get "a"; LfuDictCache.Get "b"; LfuDictCache.Get "c"]%string.

Import LfuDictCache.
Set Warnings "-clear-no-such-hyp".

(** * Proofs *)

(** ** The method monad *)

Section monad_lemmas.
Context {S A B : Type}.

Lemma out_eta (o : Out S A) : o = MkOut (res o) (st o) (log o).
Proof. by destruct o. Qed.

Lemma bind_ok (m : M S A) (k : A → M S B) s a s1 r s2 l :
  m s = MkOut (inr a) s1 [] →
  k a s1 = MkOut r s2 l →
  bind m k s = MkOut r s2 l.
Proof. intros Hm Hk. unfold bind. rewrite Hm. simpl. by rewrite Hk. Qed.

Lemma bind_raise (m : M S A) (k : A → M S B) s e s1 l :
  m s = MkOut (inl e) s1 l →
  bind m k s = MkOut (inl e) s1 l.
Proof. intros Hm. unfold bind. by rewrite Hm. Qed.

End monad_lemmas.

(** ** Insertion-ordered dictionaries *)

Section pydict_lemmas.
Context {K : Type} `{EqDecision K} {V : Type}.
Implicit Types (k : K) (v : V) (d : list (K * V)).

Lemma getitem_elem k d : k ∈ PyDict.keys d → ∃ v, PyDict.getitem k d = inr v.
Proof.
  unfold PyDict.keys. induction d as [|[k' v'] d IH]; simpl.
  - by intros ?%elem_of_nil.
  - intros [->|Hin]%elem_of_cons.
    + exists v'. by rewrite decide_True.
    + destruct (decide (k' = k)); eauto.
Qed.

Lemma getitem_not_elem k d : k ∉ PyDict.keys d → PyDict.getitem k d = inl KeyError.
Proof.
  unfold PyDict.keys. induction d as [|[k' v'] d IH]; simpl; [done|].
  intros Hn%not_elem_of_cons. destruct Hn as [Hne Hn].
  rewrite decide_False; [|done]. auto.
Qed.

Lemma getitem_inr_elem k v d : PyDict.getitem k d = inr v → (k, v) ∈ d.
Proof.
  induction d as [|[k' v'] d IH]; simpl; [done|].
  destruct (decide (k' = k)) as [->|].
  - intros [= ->]. left.
  - intros. right. auto.
Qed.

Lemma getitem_setitem k v d : PyDict.getitem k (PyDict.setitem k v d) = inr v.
Proof.
  induction d as [|[k' v'] d IH]; simpl.
  - by rewrite decide_True.
  - destruct (decide (k' = k)) as [->|Hne]; simpl.
    + by rewrite decide_True.
    + by rewrite decide_False.
Qed.

Lemma getitem_setitem_ne k k' v d :
  k' ≠ k → PyDict.getitem k' (PyDict.setitem k v d) = PyDict.getitem k' d.
Proof.
  intros Hne. induction d as [|[k0 v0] d IH]; simpl.
  - by rewrite decide_False.
  - destruct (decide (k0 = k)) as [->|]; simpl.
    + by rewrite !decide_False.
    + by rewrite IH.
Qed.

Lemma remove_setitem k v d :
  PyDict.remove k (PyDict.setitem k v d) = PyDict.remove k d.
Proof.
  unfold PyDict.remove. induction d as [|[k' v'] d IH]; simpl.
  - rewrite filter_cons_False; [done|]. simpl. by intros [].
  - destruct (decide (k' = k)) as [->|Hne].
    + rewrite !filter_cons_False; simpl; try (by intros []). done.
    + rewrite !filter_cons_True; simpl; try done. by rewrite IH.
Qed.

Lemma keys_setitem_elem k v d :
  k ∈ PyDict.keys d → PyDict.keys (PyDict.setitem k v d) = PyDict.keys d.
Proof.
  unfold PyDict.keys. induction d as [|[k' v'] d IH]; simpl.
  - by intros ?%elem_of_nil.
  - destruct (decide (k' = k)) as [->|Hne]; [done|].
    intros [?|Hin]%elem_of_cons; [congruence|]. csimpl. by rewrite IH.
Qed.

Lemma setitem_not_elem k v d :
  k ∉ PyDict.keys d → PyDict.setitem k v d = d ++ [(k, v)].
Proof.
  unfold PyDict.keys. induction d as [|[k' v'] d IH]; simpl; [done|].
  intros [Hne Hn]%not_elem_of_cons.
  rewrite decide_False; [|done]. by rewrite IH.
Qed.

Lemma keys_remove k d :
  PyDict.keys (PyDict.remove k d) = filter (λ x, x ≠ k) (PyDict.keys d).
Proof.
  unfold PyDict.keys, PyDict.remove. induction d as [|[k' v'] d IH]; [done|].
  rewrite fmap_cons. simpl. destruct (decide (k' ≠ k)).
  - rewrite !filter_cons_True; try done. rewrite fmap_cons. simpl. by rewrite IH.
  - rewrite !filter_cons_False; done.
Qed.

Lemma elem_of_keys_remove k k' d :
  k' ∈ PyDict.keys (PyDict.remove k d) ↔ k' ≠ k ∧ k' ∈ PyDict.keys d.
Proof. rewrite keys_remove. by rewrite list_elem_of_filter. Qed.

Lemma NoDup_keys_remove k d :
  NoDup (PyDict.keys d) → NoDup (PyDict.keys (PyDict.remove k d)).
Proof. rewrite keys_remove. apply NoDup_filter. Qed.

Lemma remove_not_elem k d : k ∉ PyDict.keys d → PyDict.remove k d = d.
Proof.
  unfold PyDict.keys, PyDict.remove. induction d as [|[k' v'] d IH]; [done|].
  rewrite fmap_cons. intros [Hne Hn]%not_elem_of_cons.
  rewrite filter_cons_True; [|simpl in *; congruence]. by rewrite IH.
Qed.

Lemma length_remove k d :
  NoDup (PyDict.keys d) → k ∈ PyDict.keys d →
  length d = Datatypes.S (length (PyDict.remove k d)).
Proof.
  unfold PyDict.keys, PyDict.remove. induction d as [|[k' v'] d IH]; simpl.
  - by intros _ ?%elem_of_nil.
  - intros [Hn Hnd]%NoDup_cons [->|Hin]%elem_of_cons.
    + rewrite filter_cons_False; [|simpl; by intros []].
      fold (PyDict.remove k' d). rewrite remove_not_elem; done.
    + rewrite filter_cons_True; [|simpl; intros ->; done].
      simpl. by rewrite <- IH.
Qed.

Lemma length_remove_le k d : (length (PyDict.remove k d) ≤ length d)%nat.
Proof. apply length_filter. Qed.

Lemma contains_true k d : PyDict.contains k d = true ↔ k ∈ PyDict.keys d.
Proof. unfold PyDict.contains. apply bool_decide_eq_true. Qed.

Lemma contains_false k d : PyDict.contains k d = false ↔ k ∉ PyDict.keys d.
Proof. unfold PyDict.contains. apply bool_decide_eq_false. Qed.

Lemma keys_length d : length (PyDict.keys d) = length d.
Proof. apply length_fmap. Qed.

End pydict_lemmas.

(** ** [DictCache] *)

Section dictcache_lemmas.
Context {K : Type} `{EqDecision K} {V : Type}.
Implicit Types (c : DictCache.t K V).

(** A write leaves the key at the most recent end; the oldest entry goes
    when the map has outgrown [maxsize]. *)
Lemma DictCache_setitem_eq key value c :
  DictCache.__setitem__ key value c =
    let d := PyDict.remove key (DictCache.od c) ++ [(key, value)] in
    if DictCache.maxsize c <? PyDict.len d then
      MkOut (inr tt) (DictCache.Mk (DictCache.maxsize c) (tail d)) [PopOldest]
    else MkOut (inr tt) (DictCache.Mk (DictCache.maxsize c) d) [].
Proof.
  unfold DictCache.__setitem__, bind, DictCache.super_setitem, modify,
    DictCache.move_to_end, try_update, DictCache.__len__, gets, tell,
    DictCache.popitem_first, ret. simpl.
  unfold PyDict.move_to_end. rewrite getitem_setitem, remove_setitem. simpl.
  destruct (_ <? _); [|done].
  simpl. by destruct (PyDict.remove key (DictCache.od c)).
Qed.

Lemma DictCache_setitem_fits key value c :
  PyDict.len (PyDict.remove key (DictCache.od c)) < DictCache.maxsize c →
  DictCache.__setitem__ key value c =
    MkOut (inr tt)
      (DictCache.Mk (DictCache.maxsize c)
         (PyDict.remove key (DictCache.od c) ++ [(key, value)])) [].
Proof.
  intros Hlt. rewrite DictCache_setitem_eq. simpl.
  destruct (_ <? _) eqn:E; [|done].
  apply Z.ltb_lt in E. unfold PyDict.len in *.
  rewrite length_app in E. simpl in E. lia.
Qed.

Lemma DictCache_delitem_elem key c :
  key ∈ PyDict.keys (DictCache.od c) →
  DictCache.__delitem__ key c =
    MkOut (inr tt)
      (DictCache.Mk (DictCache.maxsize c) (PyDict.remove key (DictCache.od c))) [].
Proof.
  intros Hin%contains_true.
  unfold DictCache.__delitem__, try_update, PyDict.delitem. by rewrite Hin.
Qed.

Lemma DictCache_delitem_not_elem key c :
  key ∉ PyDict.keys (DictCache.od c) →
  DictCache.__delitem__ key c = MkOut (inl KeyError) c [].
Proof.
  intros Hin%contains_false.
  unfold DictCache.__delitem__, try_update, PyDict.delitem. by rewrite Hin.
Qed.

Lemma DictCache_first_key (k : K) (v : V) (d : list (K * V)) size :
  DictCache.first_key (DictCache.Mk size ((k, v) :: d)) =
    MkOut (inr k) (DictCache.Mk size ((k, v) :: d)) [].
Proof.
  unfold DictCache.first_key, try_update, PyDict.next, PyDict.iter.
  cbn [PyDict.it_live PyDict.it_used PyDict.it_pos DictCache.od].
  by rewrite Z.eqb_refl.
Qed.

Lemma DictCache_set_all_zero (kvs : list (K * V)) :
  DictCache.set_all kvs (DictCache.__init__ 0) = DictCache.__init__ 0.
Proof.
  induction kvs as [|[k v] kvs IH]; [done|].
  cbn [DictCache.set_all]. rewrite DictCache_setitem_eq. exact IH.
Qed.

(** C10: with [maxsize = 0] a write to the empty map stores the entry at the
    most recent end, finds the map longer than [maxsize] and pops that same
    entry as the oldest; so after any sequence of writes the map is empty and
    reading any key raises [KeyError]. *)
Theorem DictCache_maxsize_zero_retains_nothing
    (key : K) (value : V) (kvs : list (K * V)) :
  let c0 : DictCache.t K V := DictCache.__init__ 0 in
  let stored :=
    st (bind (DictCache.super_setitem key value)
             (fun _ => DictCache.move_to_end key) c0) in
  DictCache.od stored = [(key, value)] ∧
  DictCache.popitem_first stored = MkOut (inr (key, value)) c0 [] ∧
  DictCache.__setitem__ key value c0 = MkOut (inr tt) c0 [PopOldest] ∧
  DictCache.set_all kvs c0 = c0 ∧
  res (DictCache.__len__ (DictCache.set_all kvs c0)) = inr 0 ∧
  ∀ k, DictCache.__getitem__ k (DictCache.set_all kvs c0)
       = MkOut (inl KeyError) c0 [].
Proof.
  intros c0 stored.
  assert (Hstored : stored = DictCache.Mk 0 [(key, value)]).
  { subst stored c0.
    unfold bind, DictCache.super_setitem, modify, DictCache.move_to_end,
      try_update, PyDict.move_to_end. simpl.
    rewrite decide_True by done. simpl.
    unfold PyDict.remove. rewrite filter_cons_False; [done|].
    simpl. by intros []. }
  rewrite Hstored. subst c0. rewrite DictCache_set_all_zero.
  split_and!; try done.
  by rewrite DictCache_setitem_eq.
Qed.

End dictcache_lemmas.

(** ** [SortedDict] *)

Section sorteddict_lemmas.
Context {B : Type}.
Implicit Types (m : gmap Z B) (l : list (Z * B)).

Lemma foldl_min_item_Some l a :
  ∃ x, foldl SortedDict.min_item (Some a) l = Some x ∧
       (x = a ∨ x ∈ l) ∧ x.1 ≤ a.1 ∧ ∀ y, y ∈ l → x.1 ≤ y.1.
Proof.
  revert a. induction l as [|y l IH]; intros a; simpl.
  - exists a. split_and!; [done|by left|lia|]. by intros ? ?%elem_of_nil.
  - destruct a as [fa ba]. simpl. destruct (y.1 <? fa) eqn:E.
    + apply Z.ltb_lt in E. destruct (IH y) as (x & -> & Hx & Hle & Hall).
      exists x. split_and!; [done| |simpl; lia|].
      * right. destruct Hx as [->|]; [left|by right].
      * intros z [->|?]%elem_of_cons; auto.
    + apply Z.ltb_ge in E. destruct (IH (fa, ba)) as (x & -> & Hx & Hle & Hall).
      exists x. split_and!; [done| |done|].
      * destruct Hx as [->|]; [by left|right; by right].
      * intros z [->|?]%elem_of_cons; [simpl in *; lia|auto].
Qed.

Lemma peekitem0_min m f b :
  SortedDict.peekitem0 m = inr (f, b) →
  m !! f = Some b ∧ ∀ f', is_Some (m !! f') → f ≤ f'.
Proof.
  unfold SortedDict.peekitem0.
  destruct (map_to_list m) as [|a l] eqn:El; simpl; [done|].
  destruct (foldl_min_item_Some l a) as (x & -> & Hx & Hle & Hall).
  intros [= ->].
  assert (Hin : ∀ y, y ∈ a :: l ↔ m !! y.1 = Some y.2).
  { intros [f' b']. rewrite <- El. apply elem_of_map_to_list. }
  split.
  - apply (Hin (f, b)). destruct Hx as [->|]; [left|by right].
  - intros f' [b' Hb']. apply (Hin (f', b')) in Hb'.
    apply elem_of_cons in Hb' as [<-|Hb']; [done|]. by apply (Hall (f', b')).
Qed.

Lemma peekitem0_raises m e :
  SortedDict.peekitem0 m = inl e → e = IndexError ∧ m = ∅.
Proof.
  unfold SortedDict.peekitem0.
  destruct (map_to_list m) as [|a l] eqn:El; simpl.
  - intros [= <-]. split; [done|]. by apply map_to_list_empty_iff.
  - destruct (foldl_min_item_Some l a) as (x & -> & _). done.
Qed.

Lemma peekitem0_is_inr m f b :
  m !! f = Some b → ∃ fb, SortedDict.peekitem0 m = inr fb.
Proof.
  intros Hf. destruct (SortedDict.peekitem0 m) as [e|fb] eqn:E; [|eauto].
  apply peekitem0_raises in E as [_ ->]. by rewrite lookup_empty in Hf.
Qed.

End sorteddict_lemmas.

(** ** The frequency index *)

Section index_lemmas.
Context {K : Type} `{!EqDecision K, !Countable K}.
Implicit Types (m : gmap Z (DictCache.t K unit)) (k : K) (f : Z).

Lemma bucket_eta (b : DictCache.t K unit) :
  DictCache.Mk (DictCache.maxsize b) (DictCache.od b) = b.
Proof. by destruct b. Qed.

Lemma in_bucket_without m k f f' k' :
  in_bucket (bucket_without k f m) f' k' ↔
  in_bucket m f' k' ∧ ¬ (f' = f ∧ k' = k).
Proof.
  unfold in_bucket, bucket_without.
  destruct (m !! f) as [b|] eqn:Eb.
  - destruct (decide (PyDict.remove k (DictCache.od b) = [])) as [Hnil|Hne].
    + destruct (decide (f' = f)) as [->|Hf].
      * rewrite lookup_delete_eq. split; [by intros (? & ? & _)|].
        intros [(b' & Hb' & Hin) Hnot]. assert (b' = b) as -> by congruence.
        assert (k' ∈ PyDict.keys (PyDict.remove k (DictCache.od b))) as Hk.
        { apply elem_of_keys_remove. split; [|done]. intros ->. by apply Hnot. }
        rewrite Hnil in Hk. by apply elem_of_nil in Hk.
      * rewrite lookup_delete_ne by done. naive_solver.
    + destruct (decide (f' = f)) as [->|Hf].
      * rewrite lookup_insert_eq. split.
        -- intros (b' & [= <-] & Hin). simpl in Hin.
           apply elem_of_keys_remove in Hin as [? ?]. split; [eauto|]. naive_solver.
        -- intros [(b' & Hb' & Hin) Hnot]. assert (b' = b) as -> by congruence.
           eexists; split; [done|]. simpl. apply elem_of_keys_remove.
           split; [|done]. intros ->. by apply Hnot.
      * rewrite lookup_insert_ne by done. naive_solver.
  - split; [|naive_solver]. intros (b & Hb & Hin). split; [eauto|].
    intros [-> _]. congruence.
Qed.

Lemma in_bucket_with m k f size f' k' :
  in_bucket (bucket_with k f size m) f' k' ↔
  (f' = f ∧ k' = k) ∨ in_bucket m f' k'.
Proof.
  unfold in_bucket, bucket_with.
  destruct (decide (f' = f)) as [->|Hf].
  - rewrite lookup_insert_eq. split.
    + intros (b' & [= <-] & Hin). simpl in Hin.
      unfold PyDict.keys in Hin. rewrite fmap_app in Hin.
      apply elem_of_app in Hin as [Hin|Hin].
      * apply elem_of_keys_remove in Hin as [? Hin]. right.
        destruct (m !! f) as [b|]; simpl in *; [eauto|].
        by apply elem_of_nil in Hin.
      * left. simpl in Hin. apply list_elem_of_singleton in Hin. done.
    + intros Hor. eexists; split; [done|]. simpl.
      unfold PyDict.keys. rewrite fmap_app. apply elem_of_app.
      destruct (decide (k' = k)) as [->|Hk].
      * right. simpl. left.
      * left. destruct Hor as [[_ ?]|(b & Hb & Hin)]; [done|].
        rewrite Hb. simpl. apply elem_of_keys_remove. done.
  - rewrite lookup_insert_ne by done. naive_solver.
Qed.

Lemma bucket_ok_without m k f size :
  (∀ f' b, m !! f' = Some b → bucket_ok size b) →
  ∀ f' b, bucket_without k f m !! f' = Some b → bucket_ok size b.
Proof.
  intros Hm f' b'. unfold bucket_without.
  destruct (m !! f) as [b|] eqn:Eb; [|apply Hm].
  destruct (decide (PyDict.remove k (DictCache.od b) = [])) as [Hnil|Hne].
  - intros [_ Hb']%lookup_delete_Some. eauto.
  - intros [[<- <-]|[_ Hb']]%lookup_insert_Some; [|eauto].
    destruct (Hm _ _ Eb) as (? & ? & ?).
    split_and!; simpl; [done| |done]. by apply NoDup_keys_remove.
Qed.

Lemma bucket_ok_with m k f size :
  (∀ f' b, m !! f' = Some b → bucket_ok size b) →
  ∀ f' b, bucket_with k f size m !! f' = Some b → bucket_ok size b.
Proof.
  intros Hm f' b'. unfold bucket_with.
  intros [[<- <-]|[_ Hb']]%lookup_insert_Some; [|eauto].
  assert (DictCache.maxsize (default (DictCache.__init__ size) (m !! f)) = size
          ∧ NoDup (PyDict.keys (DictCache.od
              (default (DictCache.__init__ size) (m !! f))))) as [Hs Hnd].
  { destruct (m !! f) as [b|] eqn:Eb; simpl.
    - destruct (Hm _ _ Eb) as (? & ? & ?). done.
    - split; [done|]. constructor. }
  split_and!; simpl; [done| |].
  - unfold PyDict.keys. rewrite fmap_app. apply NoDup_app. split_and!.
    + by apply NoDup_keys_remove.
    + intros x [Hx _]%elem_of_keys_remove Hx'. simpl in Hx'.
      by apply list_elem_of_singleton in Hx'.
    + simpl. apply NoDup_singleton.
  - by destruct (PyDict.remove _ _).
Qed.

End index_lemmas.

(** ** What the helpers of [LfuDictCache] compute *)

Section helper_lemmas.
Context {K : Type} `{!EqDecision K, !Countable K} {V : Type}.
Implicit Types (s : LfuDictCache.t K V) (k key : K) (f freq : Z).

Lemma on_bucket_eq {A} freq (m : M (DictCache.t K unit) A) s b :
  _freq_to_lru s !! freq = Some b →
  on_bucket freq m s =
    MkOut (res (m b)) (set_freq_to_lru (insert freq (st (m b))) s) (log (m b)).
Proof. intros Hb. unfold on_bucket. by rewrite Hb. Qed.

Lemma set_freq_to_lru_id s freq b :
  _freq_to_lru s !! freq = Some b → set_freq_to_lru (insert freq b) s = s.
Proof.
  intros Hb. destruct s as [c vs fr idx]. unfold set_freq_to_lru. simpl in *.
  by rewrite insert_id.
Qed.

Lemma clean_freq_bucket_eq freq s b :
  _freq_to_lru s !! freq = Some b →
  _clean_freq_bucket freq s =
    MkOut (inr tt)
      (if decide (DictCache.od b = []) then set_freq_to_lru (delete freq) s
       else s) [].
Proof.
  intros Hb. unfold _clean_freq_bucket.
  eapply bind_ok.
  { rewrite (on_bucket_eq _ _ _ b) by done. unfold DictCache.__len__, gets.
    simpl. by rewrite set_freq_to_lru_id. }
  unfold PyDict.len. destruct (decide (DictCache.od b = [])) as [Hnil|Hne].
  - rewrite Hnil. simpl. unfold try_update, SortedDict.delitem. by rewrite Hb.
  - destruct (DictCache.od b); [done|]. reflexivity.
Qed.

Lemma remove_key_eq key freq s :
  _freq s !! key = Some freq →
  key ∈ PyDict.keys (_values s) →
  in_bucket (_freq_to_lru s) freq key →
  _remove_key key s = MkOut (inr tt) (removed key freq s) [].
Proof.
  intros Hf Hv (b & Hb & Hin). unfold _remove_key.
  eapply bind_ok. { unfold freq_getitem, try_update. by rewrite Hf. }
  eapply bind_ok.
  { unfold _get_lru, try_update, SortedDict.getitem. by rewrite Hb. }
  eapply bind_ok.
  { unfold values_delitem, try_update, PyDict.delitem.
    apply contains_true in Hv. by rewrite Hv. }
  eapply bind_ok. { unfold freq_delitem, try_update. simpl. by rewrite Hf. }
  eapply bind_ok.
  { rewrite (on_bucket_eq _ _ _ b) by done.
    rewrite DictCache_delitem_elem by done. reflexivity. }
  erewrite clean_freq_bucket_eq; [|simpl; apply lookup_insert_eq].
  f_equal. unfold removed, bucket_without. rewrite Hb. simpl.
  destruct (decide (PyDict.remove key (DictCache.od b) = [])).
  - unfold set_freq_to_lru, set_freq, set_values. simpl.
    by rewrite delete_insert_eq.
  - unfold set_freq_to_lru, set_freq, set_values. simpl. done.
Qed.

Lemma add_key_to_freq_eq key freq s :
  (∀ b, _freq_to_lru s !! freq = Some b →
        DictCache.maxsize b = _max_size s) →
  (PyDict.len (PyDict.remove key (DictCache.od
      (default (DictCache.__init__ (_max_size s)) (_freq_to_lru s !! freq))))
   < _max_size s) →
  _add_key_to_freq key freq s =
    MkOut (inr tt)
      (set_freq_to_lru (bucket_with key freq (_max_size s)) s) [].
Proof.
  intros Hsize Hroom. unfold _add_key_to_freq.
  eapply bind_ok; [reflexivity|]. cbn beta.
  destruct (_freq_to_lru s !! freq) as [b|] eqn:Eb.
  - assert (SortedDict.contains freq (_freq_to_lru s) = true) as ->.
    { apply bool_decide_eq_true_2. eauto. }
    eapply bind_ok; [reflexivity|].
    rewrite (on_bucket_eq _ _ _ b) by done.
    rewrite DictCache_setitem_fits by (rewrite Hsize; done).
    simpl. unfold bucket_with, set_freq_to_lru. rewrite Eb. done.
  - assert (SortedDict.contains freq (_freq_to_lru s) = false) as ->.
    { apply bool_decide_eq_false_2. rewrite Eb. by intros [? ?]. }
    eapply bind_ok.
    { eapply bind_ok; reflexivity. }
    erewrite on_bucket_eq; [|simpl; apply lookup_insert_eq].
    rewrite DictCache_setitem_fits by done.
    simpl. unfold bucket_with, set_freq_to_lru. simpl. rewrite Eb. simpl.
    by rewrite insert_insert_eq.
Qed.

End helper_lemmas.

(** ** Well-formedness is kept by the three structural transitions *)

Section wf_lemmas.
Context {K : Type} `{!EqDecision K, !Countable K} {V : Type}.
Implicit Types (s : LfuDictCache.t K V) (k key : K) (f freq : Z).

Lemma length_keys_le {A B} (d1 : list (K * A)) (d2 : list (K * B)) :
  NoDup (PyDict.keys d1) →
  (∀ x, x ∈ PyDict.keys d1 → x ∈ PyDict.keys d2) →
  (length d1 ≤ length d2)%nat.
Proof.
  intros Hnd Hsub. rewrite <- (keys_length d1), <- (keys_length d2).
  apply submseteq_length, NoDup_submseteq; done.
Qed.

(** A bucket whose other keys are all stored has room for [key], which is
    stored too. *)
Lemma bucket_has_room {A} (vals : list (K * V)) (d : list (K * A)) key size :
  NoDup (PyDict.keys vals) →
  NoDup (PyDict.keys d) →
  (∀ x, x ∈ PyDict.keys d → x ≠ key → x ∈ PyDict.keys vals) →
  key ∈ PyDict.keys vals →
  PyDict.len vals ≤ size →
  PyDict.len (PyDict.remove key d) < size.
Proof.
  intros Hv Hd Hsub Hin Hlen. unfold PyDict.len in *.
  pose proof (length_remove key vals Hv Hin) as Hl.
  assert (length (PyDict.remove key d) ≤ length (PyDict.remove key vals))%nat.
  { apply length_keys_le; [by apply NoDup_keys_remove|].
    intros x [Hne Hx]%elem_of_keys_remove. apply elem_of_keys_remove. auto. }
  lia.
Qed.

Lemma wf_in_values s k f :
  wf s → _freq s !! k = Some f → k ∈ PyDict.keys (_values s).
Proof. intros Hwf Hf. apply (wf_freq s Hwf). eauto. Qed.

Lemma wf_not_in_values s k :
  wf s → k ∉ PyDict.keys (_values s) → _freq s !! k = None.
Proof.
  intros Hwf Hk. destruct (_freq s !! k) eqn:E; [|done].
  exfalso. apply Hk. by eapply wf_in_values.
Qed.

Lemma wf_removed s k f :
  wf s → _freq s !! k = Some f → wf (removed k f s).
Proof.
  intros Hwf Hf. destruct Hwf as [Hc Hl Hnd Hfr Hcnt Hidx Hb].
  split; unfold removed; simpl.
  - done.
  - pose proof (length_remove_le k (_values s)). unfold PyDict.len in *. lia.
  - by apply NoDup_keys_remove.
  - intros k'. rewrite elem_of_keys_remove, Hfr.
    destruct (decide (k' = k)) as [->|Hne].
    + rewrite lookup_delete_eq. split; [by intros []|by intros []].
    + rewrite lookup_delete_ne by done. naive_solver.
  - intros k' f' [_ ?]%lookup_delete_Some. eauto.
  - intros k' f'. rewrite in_bucket_without, <- Hidx, lookup_delete_Some.
    split; [naive_solver|]. intros [Hf' Hnot]. split; [|done].
    intros ->. apply Hnot. split; congruence.
  - by apply bucket_ok_without.
Qed.

Lemma wf_promoted s k f :
  wf s → _freq s !! k = Some f → wf (promoted k f s).
Proof.
  intros Hwf Hf. pose proof (wf_in_values _ _ _ Hwf Hf) as Hin.
  destruct Hwf as [Hc Hl Hnd Hfr Hcnt Hidx Hb].
  split; unfold promoted; simpl; try done.
  - intros k'. rewrite Hfr. destruct (decide (k' = k)) as [->|Hne].
    + rewrite lookup_insert_eq. split; eauto.
    + by rewrite lookup_insert_ne.
  - intros k' f' [[_ <-]|[_ ?]]%lookup_insert_Some; [|eauto].
    specialize (Hcnt _ _ Hf). lia.
  - intros k' f'. rewrite in_bucket_with, in_bucket_without, <- Hidx.
    rewrite lookup_insert_Some. split.
    + intros [[<- <-]|[Hne Hf']]; [by left|]. right. split; [done|].
      intros [_ ->]. done.
    + intros [[-> ->]|[Hf' Hnot]]; [by left|]. right. split; [|done].
      intros <-. apply Hnot. split; congruence.
  - by apply bucket_ok_with, bucket_ok_without.
Qed.

Lemma wf_inserted s k v :
  wf s → k ∉ PyDict.keys (_values s) →
  PyDict.len (_values s) < _max_size s →
  wf (inserted k v s).
Proof.
  intros Hwf Hk Hlt. pose proof (wf_not_in_values _ _ Hwf Hk) as Hnone.
  destruct Hwf as [Hc Hl Hnd Hfr Hcnt Hidx Hb].
  assert (Hkeys : PyDict.keys (_values s ++ [(k, v)])
                  = PyDict.keys (_values s) ++ [k]).
  { unfold PyDict.keys. by rewrite fmap_app. }
  split; unfold inserted; simpl; try done.
  - unfold PyDict.len in *. rewrite length_app. simpl. lia.
  - rewrite Hkeys. apply NoDup_app. split_and!; [done| |apply NoDup_singleton].
    intros x Hx ->%list_elem_of_singleton. done.
  - intros k'. rewrite Hkeys, elem_of_app, list_elem_of_singleton, Hfr.
    destruct (decide (k' = k)) as [->|Hne].
    + rewrite lookup_insert_eq. split; eauto.
    + rewrite lookup_insert_ne by done. naive_solver.
  - intros k' f' [[_ <-]|[_ ?]]%lookup_insert_Some; [done|eauto].
  - intros k' f'. rewrite in_bucket_with, <- Hidx, lookup_insert_Some.
    split.
    + intros [[<- <-]|[Hne Hf']]; [by left|by right].
    + intros [[-> ->]|Hf']; [by left|]. right. split; [|done].
      intros <-. congruence.
  - by apply bucket_ok_with.
Qed.

Lemma wf_set_value s k v :
  wf s → k ∈ PyDict.keys (_values s) →
  wf (set_values (PyDict.setitem k v) s).
Proof.
  intros [Hc Hl Hnd Hfr Hcnt Hidx Hb] Hin.
  pose proof (keys_setitem_elem k v _ Hin) as Hkeys.
  split; unfold set_values; simpl; try done.
  - unfold PyDict.len in *.
    rewrite <- (keys_length (PyDict.setitem _ _ _)), Hkeys, keys_length. done.
  - by rewrite Hkeys.
  - intros k'. by rewrite Hkeys.
Qed.

Lemma wf_init size s0 :
  LfuDictCache.__init__ (K:=K) (V:=V) size = inr s0 →
  0 ≤ size ∧ wf s0 ∧
  s0 = LfuDictCache.Mk size [] ∅ ∅.
Proof.
  unfold LfuDictCache.__init__. destruct (size <? 0) eqn:E; [done|].
  apply Z.ltb_ge in E. intros [= <-]. split; [done|]. split; [|done].
  split; simpl; try done.
  - constructor.
  - intros k. rewrite lookup_empty. split; [by intros ?%elem_of_nil|by intros [? ?]].
  - intros k f. rewrite lookup_empty. split; [done|].
    intros (b & Hb & _). by rewrite lookup_empty in Hb.
Qed.

End wf_lemmas.

(** ** What the operations do on a well-formed cache *)

Section operation_lemmas.
Context {K : Type} `{!EqDecision K, !Countable K} {V : Type}.
Implicit Types (s : LfuDictCache.t K V) (k key : K) (f freq : Z).

Lemma without_eq key freq s b :
  _freq_to_lru s !! freq = Some b →
  (if decide (PyDict.remove key (DictCache.od b) = [])
   then set_freq_to_lru (delete freq)
          (set_freq_to_lru
             (insert freq (DictCache.Mk (DictCache.maxsize b)
                             (PyDict.remove key (DictCache.od b)))) s)
   else set_freq_to_lru
          (insert freq (DictCache.Mk (DictCache.maxsize b)
                          (PyDict.remove key (DictCache.od b)))) s)
  = set_freq_to_lru (bucket_without key freq) s.
Proof.
  intros Hb. unfold set_freq_to_lru, bucket_without. simpl. rewrite Hb.
  destruct (decide _); simpl; [|done]. by rewrite delete_insert_eq.
Qed.

Lemma increase_freq_eq key freq s :
  wf s → _freq s !! key = Some freq →
  _increase_freq key s = MkOut (inr tt) (promoted key freq s) [].
Proof.
  intros Hwf Hf.
  pose proof (wf_in_values _ _ _ Hwf Hf) as Hin.
  destruct (proj1 (wf_index s Hwf key freq) Hf) as (b & Hb & Hkb).
  unfold _increase_freq.
  eapply bind_ok. { unfold freq_getitem, try_update. by rewrite Hf. }
  eapply bind_ok.
  { unfold _get_lru, try_update, SortedDict.getitem. by rewrite Hb. }
  eapply bind_ok.
  { rewrite (on_bucket_eq _ _ _ b) by done.
    rewrite DictCache_delitem_elem by done. reflexivity. }
  eapply bind_ok.
  { erewrite clean_freq_bucket_eq; [|simpl; apply lookup_insert_eq].
    simpl. rewrite (without_eq key freq s b Hb). reflexivity. }
  eapply bind_ok.
  { apply add_key_to_freq_eq; simpl.
    - intros b' Hb'.
      by destruct (bucket_ok_without _ key freq _ (wf_bucket s Hwf) _ _ Hb').
    - apply (bucket_has_room (_values s)); try done.
      + apply (wf_values s Hwf).
      + destruct (bucket_without key freq (_freq_to_lru s) !! (freq + 1))
          as [b'|] eqn:Eb'; simpl; [|constructor].
        by destruct (bucket_ok_without _ key freq _ (wf_bucket s Hwf) _ _ Eb')
          as (_ & ? & _).
      + intros x Hx _.
        destruct (bucket_without key freq (_freq_to_lru s) !! (freq + 1))
          as [b'|] eqn:Eb'; simpl in Hx; [|by apply elem_of_nil in Hx].
        assert (in_bucket (bucket_without key freq (_freq_to_lru s))
                  (freq + 1) x) as Hib by (exists b'; done).
        apply in_bucket_without in Hib as [Hib _].
        apply (wf_index s Hwf) in Hib. by eapply wf_in_values.
      + apply (wf_len s Hwf). }
  reflexivity.
Qed.

Lemma evict_eq s :
  wf s → _values s ≠ [] →
  ∃ e f b rest,
    SortedDict.peekitem0 (_freq_to_lru s) = inr (f, b) ∧
    DictCache.od b = (e, tt) :: rest ∧
    _freq s !! e = Some f ∧
    _evict s = MkOut (inr tt) (removed e f s) [].
Proof.
  intros Hwf Hne.
  destruct (_values s) as [|[k0 v0] vs] eqn:Ev; [done|].
  assert (k0 ∈ PyDict.keys (_values s)) as Hk0 by (rewrite Ev; left).
  apply (wf_freq s Hwf) in Hk0 as [f0 Hf0].
  destruct (proj1 (wf_index s Hwf _ _) Hf0) as (b0 & Hb0 & _).
  destruct (peekitem0_is_inr _ _ _ Hb0) as [[f b] Hpeek].
  destruct (peekitem0_min _ _ _ Hpeek) as [Hb _].
  destruct (wf_bucket s Hwf _ _ Hb) as (_ & _ & Hnil).
  destruct b as [size [|[e []] rest]]; [done|].
  assert (in_bucket (_freq_to_lru s) f e) as Hib.
  { eexists; split; [done|]. left. }
  pose proof (proj2 (wf_index s Hwf _ _) Hib) as Hfe.
  exists e, f, (DictCache.Mk size ((e, tt) :: rest)), rest.
  split_and!; try done.
  unfold _evict.
  eapply bind_ok. { unfold try_update. by rewrite Hpeek. }
  eapply bind_ok.
  { simpl. erewrite on_bucket_eq by done. rewrite DictCache_first_key.
    simpl. by rewrite set_freq_to_lru_id. }
  apply remove_key_eq; [done| |done]. by eapply wf_in_values.
Qed.

Lemma getitem_raises key s :
  key ∉ PyDict.keys (_values s) →
  LfuDictCache.__getitem__ key s = MkOut (inl KeyError) s [].
Proof.
  intros Hk. unfold LfuDictCache.__getitem__. eapply bind_raise.
  unfold try_update. by rewrite getitem_not_elem.
Qed.

Lemma getitem_eq key value freq s :
  wf s → PyDict.getitem key (_values s) = inr value →
  _freq s !! key = Some freq →
  LfuDictCache.__getitem__ key s = MkOut (inr value) (promoted key freq s) [].
Proof.
  intros Hwf Hv Hf. unfold LfuDictCache.__getitem__.
  eapply bind_ok. { unfold try_update. by rewrite Hv. }
  eapply bind_ok; [by apply increase_freq_eq|]. reflexivity.
Qed.

Lemma delitem_raises key s :
  wf s → key ∉ PyDict.keys (_values s) →
  LfuDictCache.__delitem__ key s = MkOut (inl KeyError) s [].
Proof.
  intros Hwf Hk. unfold LfuDictCache.__delitem__, _remove_key.
  eapply bind_raise. unfold freq_getitem, try_update.
  by rewrite (wf_not_in_values _ _ Hwf Hk).
Qed.

Lemma delitem_eq key freq s :
  wf s → _freq s !! key = Some freq →
  LfuDictCache.__delitem__ key s = MkOut (inr tt) (removed key freq s) [].
Proof.
  intros Hwf Hf. apply remove_key_eq; [done| |].
  - by eapply wf_in_values.
  - by apply (wf_index s Hwf).
Qed.

Lemma setitem_zero key value s :
  _max_size s = 0 →
  LfuDictCache.__setitem__ key value s = MkOut (inr tt) s [].
Proof.
  intros Hz. unfold LfuDictCache.__setitem__.
  eapply bind_ok; [reflexivity|]. by rewrite Hz.
Qed.

Lemma setitem_present key value freq s :
  wf s → _max_size s ≠ 0 → _freq s !! key = Some freq →
  LfuDictCache.__setitem__ key value s =
    MkOut (inr tt)
      (promoted key freq (set_values (PyDict.setitem key value) s)) [].
Proof.
  intros Hwf Hz Hf. pose proof (wf_in_values _ _ _ Hwf Hf) as Hin.
  unfold LfuDictCache.__setitem__.
  eapply bind_ok; [reflexivity|].
  apply Z.eqb_neq in Hz. rewrite Hz.
  eapply bind_ok; [reflexivity|].
  apply contains_true in Hin. rewrite Hin.
  eapply bind_ok; [reflexivity|].
  apply increase_freq_eq; [|done].
  apply wf_set_value; [done|]. by apply contains_true.
Qed.

Lemma store_new_eq key value s :
  wf s → key ∉ PyDict.keys (_values s) →
  PyDict.len (_values s) < _max_size s →
  bind (_set_value key value)
    (fun _ => bind (modify (set_freq (insert key 1)))
       (fun _ => _add_key_to_freq key 1)) s
  = MkOut (inr tt) (inserted key value s) [].
Proof.
  intros Hwf Hk Hlt.
  eapply bind_ok; [reflexivity|].
  eapply bind_ok; [reflexivity|].
  rewrite add_key_to_freq_eq; simpl.
  - unfold inserted, set_freq_to_lru. simpl.
    by rewrite (setitem_not_elem _ _ _ Hk).
  - intros b Hb. by destruct (wf_bucket s Hwf _ _ Hb).
  - apply (bucket_has_room (_values s ++ [(key, value)])).
    + unfold PyDict.keys. rewrite fmap_app. apply NoDup_app.
      split_and!; [apply (wf_values s Hwf)| |apply NoDup_singleton].
      intros x Hx ->%list_elem_of_singleton. done.
    + destruct (_freq_to_lru s !! 1) as [b|] eqn:Eb; simpl; [|constructor].
      by destruct (wf_bucket s Hwf _ _ Eb) as (_ & ? & _).
    + intros x Hx _. unfold PyDict.keys. rewrite fmap_app.
      apply elem_of_app. left.
      destruct (_freq_to_lru s !! 1) as [b|] eqn:Eb; simpl in Hx;
        [|by apply elem_of_nil in Hx].
      apply (wf_in_values s x 1 Hwf). apply (wf_index s Hwf).
      by exists b.
    + unfold PyDict.keys. rewrite fmap_app. apply elem_of_app. right. left.
    + unfold PyDict.len in *. rewrite length_app. simpl. lia.
Qed.

Lemma setitem_new_room key value s :
  wf s → key ∉ PyDict.keys (_values s) →
  PyDict.len (_values s) < _max_size s →
  LfuDictCache.__setitem__ key value s =
    MkOut (inr tt) (inserted key value s) [].
Proof.
  intros Hwf Hk Hlt. unfold LfuDictCache.__setitem__.
  eapply bind_ok; [reflexivity|].
  assert ((_max_size s =? 0) = false) as -> by (apply Z.eqb_neq; unfold PyDict.len in *; lia).
  eapply bind_ok; [reflexivity|].
  apply contains_false in Hk as Hc. rewrite Hc.
  eapply bind_ok; [reflexivity|].
  assert ((_max_size s <=? PyDict.len (_values s)) = false) as ->
    by (apply Z.leb_gt; done).
  eapply bind_ok; [reflexivity|].
  by apply store_new_eq.
Qed.

Lemma setitem_new_full key value s :
  wf s → key ∉ PyDict.keys (_values s) →
  _max_size s ≠ 0 → PyDict.len (_values s) = _max_size s →
  ∃ e f b rest,
    SortedDict.peekitem0 (_freq_to_lru s) = inr (f, b) ∧
    DictCache.od b = (e, tt) :: rest ∧
    _freq s !! e = Some f ∧
    LfuDictCache.__setitem__ key value s =
      MkOut (inr tt) (inserted key value (removed e f s)) [].
Proof.
  intros Hwf Hk Hz Hfull.
  assert (_values s ≠ []) as Hne.
  { intros Hnil. rewrite Hnil in Hfull. simpl in Hfull. done. }
  destruct (evict_eq s Hwf Hne) as (e & f & b & rest & Hpeek & Hod & Hfe & Hev).
  exists e, f, b, rest. split_and!; try done.
  pose proof (wf_in_values _ _ _ Hwf Hfe) as Hein.
  pose proof (wf_removed _ _ _ Hwf Hfe) as Hwf'.
  unfold LfuDictCache.__setitem__.
  eapply bind_ok; [reflexivity|].
  apply Z.eqb_neq in Hz as Hz'. rewrite Hz'.
  eapply bind_ok; [reflexivity|].
  apply contains_false in Hk as Hc. rewrite Hc.
  eapply bind_ok; [reflexivity|].
  assert ((_max_size s <=? PyDict.len (_values s)) = true) as ->
    by (apply Z.leb_le; lia).
  eapply bind_ok; [exact Hev|].
  apply store_new_eq; [done| |].
  - simpl. rewrite elem_of_keys_remove. tauto.
  - simpl. pose proof (length_remove e _ (wf_values s Hwf) Hein).
    unfold PyDict.len in *. lia.
Qed.

End operation_lemmas.

(** ** Sequences of operations *)

Section run_lemmas.
Context {K : Type} `{!EqDecision K, !Countable K} {V : Type}.
Implicit Types (s : LfuDictCache.t K V) (k key : K) (f freq : Z)
  (op : Op K V) (ops : list (Op K V)).

Lemma run_app ops1 ops2 s : run (ops1 ++ ops2) s = run ops2 (run ops1 s).
Proof. revert s. induction ops1 as [|op ops1 IH]; intros s; simpl; auto. Qed.

Lemma run_log_app ops1 ops2 s :
  run_log (ops1 ++ ops2) s = run_log ops1 s ++ run_log ops2 (run ops1 s).
Proof.
  revert s. induction ops1 as [|op ops1 IH]; intros s; simpl; [done|].
  by rewrite IH, app_assoc.
Qed.

Lemma step_get_cases key s :
  wf s →
  ((key ∉ PyDict.keys (_values s)) ∧
   LfuDictCache.__getitem__ key s = MkOut (inl KeyError) s []) ∨
  (∃ value freq,
     PyDict.getitem key (_values s) = inr value ∧
     _freq s !! key = Some freq ∧
     LfuDictCache.__getitem__ key s
       = MkOut (inr value) (promoted key freq s) []).
Proof.
  intros Hwf. destruct (decide (key ∈ PyDict.keys (_values s))) as [Hin|Hn].
  - right. destruct (getitem_elem _ _ Hin) as [value Hv].
    apply (wf_freq s Hwf) in Hin as [freq Hf].
    exists value, freq. split_and!; try done. by apply getitem_eq.
  - left. split; [done|]. by apply getitem_raises.
Qed.

Lemma step_del_cases key s :
  wf s →
  ((key ∉ PyDict.keys (_values s)) ∧
   LfuDictCache.__delitem__ key s = MkOut (inl KeyError) s []) ∨
  (∃ freq,
     _freq s !! key = Some freq ∧
     LfuDictCache.__delitem__ key s = MkOut (inr tt) (removed key freq s) []).
Proof.
  intros Hwf. destruct (decide (key ∈ PyDict.keys (_values s))) as [Hin|Hn].
  - right. apply (wf_freq s Hwf) in Hin as [freq Hf].
    exists freq. split; [done|]. by apply delitem_eq.
  - left. split; [done|]. by apply delitem_raises.
Qed.

Lemma step_set_cases key value s :
  wf s →
  (_max_size s = 0 ∧
   LfuDictCache.__setitem__ key value s = MkOut (inr tt) s []) ∨
  (_max_size s ≠ 0 ∧ ∃ freq,
     _freq s !! key = Some freq ∧
     LfuDictCache.__setitem__ key value s =
       MkOut (inr tt)
         (promoted key freq (set_values (PyDict.setitem key value) s)) []) ∨
  ((key ∉ PyDict.keys (_values s)) ∧
   PyDict.len (_values s) < _max_size s ∧
   LfuDictCache.__setitem__ key value s =
     MkOut (inr tt) (inserted key value s) []) ∨
  ((key ∉ PyDict.keys (_values s)) ∧ _max_size s ≠ 0 ∧
   PyDict.len (_values s) = _max_size s ∧
   ∃ e f b rest,
     SortedDict.peekitem0 (_freq_to_lru s) = inr (f, b) ∧
     DictCache.od b = (e, tt) :: rest ∧
     _freq s !! e = Some f ∧
     LfuDictCache.__setitem__ key value s =
       MkOut (inr tt) (inserted key value (removed e f s)) []).
Proof.
  intros Hwf. destruct (decide (_max_size s = 0)) as [Hz|Hz].
  { left. split; [done|]. by apply setitem_zero. }
  right. destruct (decide (key ∈ PyDict.keys (_values s))) as [Hin|Hn].
  { left. split; [done|]. apply (wf_freq s Hwf) in Hin as [freq Hf].
    exists freq. split; [done|]. by apply setitem_present. }
  right. pose proof (wf_len s Hwf) as Hlen.
  destruct (decide (PyDict.len (_values s) = _max_size s)) as [Hfull|Hroom].
  - right. split_and!; try done. by apply setitem_new_full.
  - left. split_and!; [done|lia|]. apply setitem_new_room; [done..|lia].
Qed.

Lemma step_wf op s :
  wf s →
  wf (step op s) ∧ step_log op s = [] ∧ _max_size (step op s) = _max_size s.
Proof.
  intros Hwf. destruct op as [key|key value|key]; unfold step, step_log.
  - destruct (step_get_cases key s Hwf) as [[_ ->]|(v & f & _ & Hf & ->)];
      simpl; [done|]. split_and!; try done. by apply wf_promoted.
  - destruct (step_set_cases key value s Hwf)
      as [[_ ->]|[(_ & f & Hf & ->)|[(Hk & Hlt & ->)
          |(Hk & Hz & Hfull & e & f & b & rest & _ & _ & Hfe & ->)]]];
      simpl; [done|..]; (split_and!; [|done..]).
    + apply wf_promoted; [|done]. apply wf_set_value; [done|].
      by eapply wf_in_values.
    + by apply wf_inserted.
    + pose proof (wf_in_values _ _ _ Hwf Hfe) as Hein.
      apply wf_inserted.
      * by apply wf_removed.
      * simpl. rewrite elem_of_keys_remove. tauto.
      * simpl. pose proof (length_remove e _ (wf_values s Hwf) Hein).
        unfold PyDict.len in *. lia.
  - destruct (step_del_cases key s Hwf) as [[_ ->]|(f & Hf & ->)];
      simpl; [done|]. split_and!; try done. by apply wf_removed.
Qed.

Lemma run_wf ops s :
  wf s →
  wf (run ops s) ∧ run_log ops s = [] ∧ _max_size (run ops s) = _max_size s.
Proof.
  revert s. induction ops as [|op ops IH]; intros s Hwf; simpl; [done|].
  destruct (step_wf op s Hwf) as (Hwf' & -> & Hsz).
  destruct (IH _ Hwf') as (? & ? & ?). split_and!; [done|done|congruence].
Qed.

Lemma reachable_wf size s :
  reachable size s → wf s ∧ _max_size s = size.
Proof.
  intros (s0 & ops & Hinit & ->).
  apply wf_init in Hinit as (_ & Hwf & Hs0).
  destruct (run_wf ops s0 Hwf) as (? & _ & Hsz).
  split; [done|]. rewrite Hsz, Hs0. done.
Qed.

End run_lemmas.

(** ** Bucket order is touch order *)

Section recency_lemmas.
Context {K : Type} `{!EqDecision K, !Countable K} {V : Type}.
Implicit Types (s : LfuDictCache.t K V) (k key : K) (f freq : Z)
  (op : Op K V) (ops : list (Op K V)) (time : K → nat)
  (m : gmap Z (DictCache.t K unit)).

Lemma last_touch_from_snoc i acc ops op k :
  last_touch_from i acc (ops ++ [op]) k =
    if names k op then Datatypes.S (i + length ops)
    else last_touch_from i acc ops k.
Proof.
  revert i acc. induction ops as [|op' ops IH]; intros i acc; simpl.
  - by rewrite Nat.add_0_r.
  - rewrite IH. by rewrite Nat.add_succ_r.
Qed.

Lemma last_touch_snoc ops op k :
  last_touch (ops ++ [op]) k =
    if names k op then Datatypes.S (length ops) else last_touch ops k.
Proof. unfold last_touch. by rewrite last_touch_from_snoc. Qed.

Lemma last_touch_from_le i acc ops k :
  (acc ≤ i → last_touch_from i acc ops k ≤ i + length ops)%nat.
Proof.
  revert i acc. induction ops as [|op ops IH]; intros i acc Hle; simpl; [lia|].
  rewrite Nat.add_succ_r. apply (IH (Datatypes.S i)).
  destruct (names k op); lia.
Qed.

Lemma last_touch_le ops k : (last_touch ops k ≤ length ops)%nat.
Proof. unfold last_touch. by apply (last_touch_from_le 0 0). Qed.

Lemma StronglySorted_time_filter time (P : K → Prop) `{!∀ x, Decision (P x)} l :
  StronglySorted (λ k1 k2, (time k1 < time k2)%nat) l →
  StronglySorted (λ k1 k2, (time k1 < time k2)%nat) (filter P l).
Proof.
  induction 1 as [|x l Hs IH Hall]; [constructor|].
  destruct (decide (P x)).
  - rewrite filter_cons_True by done. constructor; [done|].
    apply Forall_forall. intros y [_ Hy]%list_elem_of_filter.
    by apply (proj1 (Forall_forall _ _) Hall).
  - by rewrite filter_cons_False.
Qed.

Lemma StronglySorted_time_ext time time' (l : list K) :
  (∀ x, x ∈ l → time' x = time x) →
  StronglySorted (λ k1 k2, (time k1 < time k2)%nat) l →
  StronglySorted (λ k1 k2, (time' k1 < time' k2)%nat) l.
Proof.
  intros Hext. induction 1 as [|x l Hs IH Hall]; [constructor|].
  constructor.
  - apply IH. intros y Hy. apply Hext. by right.
  - apply Forall_forall. intros y Hy.
    rewrite (Hext x) by left. rewrite (Hext y) by (by right).
    by apply (proj1 (Forall_forall _ _) Hall).
Qed.

Lemma index_sorted_ext time time' m :
  (∀ k f, in_bucket m f k → time' k = time k) →
  index_sorted time m → index_sorted time' m.
Proof.
  intros Hext Hs f b Hb. apply (StronglySorted_time_ext time); [|by eapply Hs].
  intros x Hx. apply (Hext x f). by exists b.
Qed.

Lemma index_sorted_without time m key freq :
  index_sorted time m → index_sorted time (bucket_without key freq m).
Proof.
  intros Hs f b'. unfold bucket_without.
  destruct (m !! freq) as [b|] eqn:Eb; [|apply Hs].
  destruct (decide _).
  - intros [_ Hb']%lookup_delete_Some. by eapply Hs.
  - intros [[<- <-]|[_ Hb']]%lookup_insert_Some; [|by eapply Hs].
    simpl. rewrite keys_remove. apply StronglySorted_time_filter. by eapply Hs.
Qed.

Lemma index_sorted_with time m key freq size :
  index_sorted time m →
  (∀ k f, in_bucket m f k → k ≠ key → (time k < time key)%nat) →
  index_sorted time (bucket_with key freq size m).
Proof.
  intros Hs Hlt f b'. unfold bucket_with.
  intros [[<- <-]|[_ Hb']]%lookup_insert_Some; [|by eapply Hs].
  simpl. unfold PyDict.keys. rewrite fmap_app. apply StronglySorted_app_2.
  - intros x1 x2 Hx1 ->%list_elem_of_singleton.
    apply elem_of_keys_remove in Hx1 as [Hne Hx1].
    destruct (m !! freq) as [b|] eqn:Eb; simpl in Hx1;
      [|by apply elem_of_nil in Hx1].
    apply (Hlt x1 freq); [by exists b|done].
  - fold (PyDict.keys (PyDict.remove key (DictCache.od
            (default (DictCache.__init__ size) (m !! freq))))).
    rewrite keys_remove. apply StronglySorted_time_filter.
    destruct (m !! freq) as [b|] eqn:Eb; simpl; [by eapply Hs|constructor].
  - simpl. repeat constructor.
Qed.

(** The key an operation touches is put behind every key stored before. *)
Lemma index_sorted_touch ops op key freq size m :
  names key op = true →
  (∀ k, k ≠ key → names k op = false) →
  (∀ k f, in_bucket m f k → k ≠ key) →
  index_sorted (last_touch ops) m →
  index_sorted (last_touch (ops ++ [op])) (bucket_with key freq size m).
Proof.
  intros Hkey Hother Hm Hs. apply index_sorted_with.
  - apply (index_sorted_ext (last_touch ops)); [|done].
    intros k f Hk. rewrite last_touch_snoc, Hother; [done|]. by eapply Hm.
  - intros k f Hk Hne. rewrite !last_touch_snoc, Hkey, (Hother k Hne).
    pose proof (last_touch_le ops k). lia.
Qed.

Lemma in_bucket_in_values s k f :
  wf s → in_bucket (_freq_to_lru s) f k → k ∈ PyDict.keys (_values s).
Proof.
  intros Hwf Hk. apply (wf_index s Hwf) in Hk. by eapply wf_in_values.
Qed.

Lemma recency_promoted ops op key freq s :
  wf s → _freq s !! key = Some freq →
  names key op = true → (∀ k, k ≠ key → names k op = false) →
  recency_ordered ops s →
  recency_ordered (ops ++ [op]) (promoted key freq s).
Proof.
  intros Hwf Hf Hkey Hother Hs. unfold recency_ordered, promoted. simpl.
  apply index_sorted_touch; try done.
  - intros k f [Hk Hnot]%in_bucket_without ->.
    apply (wf_index s Hwf) in Hk. apply Hnot. split; congruence.
  - by apply index_sorted_without.
Qed.

Lemma recency_inserted ops op key value s :
  wf s → key ∉ PyDict.keys (_values s) →
  names key op = true → (∀ k, k ≠ key → names k op = false) →
  recency_ordered ops s →
  recency_ordered (ops ++ [op]) (inserted key value s).
Proof.
  intros Hwf Hk Hkey Hother Hs. unfold recency_ordered, inserted. simpl.
  apply index_sorted_touch; try done.
  intros k f Hin ->. apply Hk. by eapply in_bucket_in_values.
Qed.

Lemma recency_unchanged ops op s :
  wf s → (∀ k, k ∈ PyDict.keys (_values s) → names k op = false) →
  recency_ordered ops s → recency_ordered (ops ++ [op]) s.
Proof.
  intros Hwf Hother. apply index_sorted_ext. intros k f Hk.
  rewrite last_touch_snoc, Hother; [done|]. by eapply in_bucket_in_values.
Qed.

Lemma recency_removed ops key freq s :
  recency_ordered ops s → recency_ordered ops (removed key freq s).
Proof. apply index_sorted_without. Qed.

Lemma recency_step ops op s :
  wf s → recency_ordered ops s →
  recency_ordered (ops ++ [op]) (step op s).
Proof.
  intros Hwf Hs. destruct op as [key|key value|key]; unfold step.
  - assert (∀ k, k ≠ key → names (V:=V) k (Get key) = false) as Hother.
    { intros k Hne. simpl. by apply bool_decide_eq_false_2. }
    destruct (step_get_cases key s Hwf) as [[Hk ->]|(v & f & _ & Hf & ->)];
      simpl.
    + apply recency_unchanged; [done| |done].
      intros k Hin. apply Hother. by intros ->.
    + apply recency_promoted; try done. simpl. by apply bool_decide_eq_true_2.
  - assert (∀ k, k ≠ key → names k (Set_ key value) = false) as Hother.
    { intros k Hne. simpl. by apply bool_decide_eq_false_2. }
    assert (names key (Set_ key value) = true) as Hkey.
    { simpl. by apply bool_decide_eq_true_2. }
    destruct (step_set_cases key value s Hwf)
      as [[Hz ->]|[(_ & f & Hf & ->)|[(Hk & Hlt & ->)
          |(Hk & Hz & Hfull & e & f & b & rest & _ & _ & Hfe & ->)]]];
      simpl.
    + apply recency_unchanged; [done| |done].
      intros k Hin. pose proof (wf_len s Hwf) as Hlen. rewrite Hz in Hlen.
      destruct (_values s); [by apply elem_of_nil in Hin|].
      unfold PyDict.len in Hlen. simpl in Hlen. lia.
    + apply recency_promoted; try done.
      apply wf_set_value; [done|]. by eapply wf_in_values.
    + by apply recency_inserted.
    + apply recency_inserted; try done.
      * by apply wf_removed.
      * simpl. rewrite elem_of_keys_remove. tauto.
      * by apply recency_removed.
  - destruct (step_del_cases key s Hwf) as [[Hk ->]|(f & Hf & ->)]; simpl.
    + by apply recency_unchanged.
    + apply recency_removed. by apply recency_unchanged.
Qed.

Lemma recency_run ops s0 size :
  LfuDictCache.__init__ size = inr s0 →
  recency_ordered ops (run ops s0).
Proof.
  intros Hinit. apply wf_init in Hinit as (_ & Hwf & Hs0).
  induction ops as [|op ops IH] using rev_ind.
  - simpl. rewrite Hs0. intros f b Hb. simpl in Hb. by rewrite lookup_empty in Hb.
  - rewrite run_app. simpl. apply recency_step; [|done].
    by apply run_wf.
Qed.

End recency_lemmas.

(** ** Key iterators *)

Section iterator_lemmas.
Context {K : Type} `{!EqDecision K} {V : Type}.
Implicit Types (d : list (K * V)).

Lemma to_list_from d i n :
  (i + n = length d)%nat →
  PyDict.to_list (Datatypes.S n)
    (PyDict.MkIter (PyDict.len d) i true) d
  = Some (inr (PyDict.keys (drop i d))).
Proof.
  revert i. induction n as [|n IH]; intros i Hi.
  - cbn [PyDict.to_list]. unfold PyDict.next.
    cbn [PyDict.it_live PyDict.it_used PyDict.it_pos].
    rewrite Z.eqb_refl.
    rewrite (lookup_ge_None_2 d i) by lia.
    by rewrite drop_ge by lia.
  - change (PyDict.to_list (Datatypes.S (Datatypes.S n)) ?it d)
      with (match PyDict.next it d with
            | (inr k, it') =>
                match PyDict.to_list (Datatypes.S n) it' d with
                | Some (inr ks) => Some (inr (k :: ks))
                | r => r
                end
            | (inl StopIteration, _) => Some (inr [])
            | (inl e, _) => Some (inl e)
            end).
    unfold PyDict.next at 1.
    cbn [PyDict.it_live PyDict.it_used PyDict.it_pos].
    rewrite Z.eqb_refl.
    destruct (lookup_lt_is_Some_2 d i) as [[k v] Hkv]; [lia|].
    rewrite Hkv. rewrite IH by lia.
    rewrite (drop_S d (k, v) i Hkv). done.
Qed.

Lemma to_list_iter d :
  PyDict.to_list (Datatypes.S (length d)) (PyDict.iter d) d
  = Some (inr (PyDict.keys d)).
Proof. apply (to_list_from d 0). lia. Qed.

Lemma to_list_resized d d' fuel :
  PyDict.len d' ≠ PyDict.len d →
  PyDict.to_list (Datatypes.S fuel) (PyDict.iter d) d' = Some (inl RuntimeError).
Proof.
  intros Hne. cbn [PyDict.to_list]. unfold PyDict.next, PyDict.iter.
  cbn [PyDict.it_live PyDict.it_used PyDict.it_pos].
  apply not_eq_sym, Z.eqb_neq in Hne. by rewrite Hne.
Qed.

Lemma to_list_same_keys d d' :
  PyDict.keys d' = PyDict.keys d →
  PyDict.to_list (Datatypes.S (length d')) (PyDict.iter d) d'
  = Some (inr (PyDict.keys d)).
Proof.
  intros Hk. assert (length d' = length d) as Hl.
  { by rewrite <- (keys_length d'), Hk, keys_length. }
  rewrite <- Hk, <- to_list_iter. unfold PyDict.iter, PyDict.len.
  by rewrite Hl.
Qed.

End iterator_lemmas.

(** * The properties of the cache *)

Section cache_properties.
Context {K : Type} `{!EqDecision K, !Countable K} {V : Type}.
Implicit Types (s : LfuDictCache.t K V) (k key : K) (f freq : Z)
  (op : Op K V) (ops : list (Op K V)).

(** C2: a cache constructed with a capacity [size >= 0] never holds more
    than [size] keys, after any prefix of any sequence of [get], [set] and
    [delete]. *)
Theorem len_never_exceeds_capacity (size : Z) ops (n : nat) :
  0 ≤ size →
  ∃ s0, LfuDictCache.__init__ size = inr s0 ∧
        LfuDictCache.__len__ (run (take n ops) s0) ≤ size.
Proof.
  intros Hsize.
  assert (∃ s0 : LfuDictCache.t K V, LfuDictCache.__init__ size = inr s0)
    as [s0 Hinit].
  { unfold LfuDictCache.__init__.
    assert ((size <? 0) = false) as -> by (apply Z.ltb_ge; lia). eauto. }
  exists s0. split; [done|].
  destruct (reachable_wf size (run (take n ops) s0)) as [Hwf Hsz].
  { by exists s0, (take n ops). }
  rewrite <- Hsz. apply (wf_len _ Hwf).
Qed.

(** C4: in every state a caller can observe, each stored key has a count,
    sits in the bucket of that count exactly once and in no other bucket;
    buckets hold stored keys only; and the index has a bucket for a count
    exactly when some stored key has that count, no bucket being empty. *)
Theorem structure_is_well_formed (size : Z) s :
  reachable size s →
  NoDup (PyDict.keys (_values s)) ∧
  (∀ k, is_Some (_freq s !! k) ↔ k ∈ PyDict.keys (_values s)) ∧
  (∀ k, k ∈ PyDict.keys (_values s) →
     ∃ f b l1 l2,
       _freq s !! k = Some f ∧
       _freq_to_lru s !! f = Some b ∧
       PyDict.keys (DictCache.od b) = l1 ++ k :: l2 ∧ (k ∉ l1) ∧ (k ∉ l2) ∧
       ∀ f' b', _freq_to_lru s !! f' = Some b' →
                k ∈ PyDict.keys (DictCache.od b') → f' = f) ∧
  (∀ f b, _freq_to_lru s !! f = Some b →
     DictCache.od b ≠ [] ∧
     ∀ k, k ∈ PyDict.keys (DictCache.od b) →
          k ∈ PyDict.keys (_values s) ∧ _freq s !! k = Some f) ∧
  (∀ f, is_Some (_freq_to_lru s !! f) ↔
        ∃ k, k ∈ PyDict.keys (_values s) ∧ _freq s !! k = Some f).
Proof.
  intros [Hwf _]%reachable_wf.
  split_and!.
  - apply (wf_values s Hwf).
  - intros k. symmetry. apply (wf_freq s Hwf).
  - intros k [f Hf]%(wf_freq s Hwf).
    destruct (proj1 (wf_index s Hwf k f) Hf) as (b & Hb & Hin).
    destruct (wf_bucket s Hwf f b Hb) as (_ & Hnd & _).
    apply list_elem_of_split in Hin as (l1 & l2 & Hsplit).
    exists f, b, l1, l2. split_and!; try done.
    + rewrite Hsplit in Hnd. apply NoDup_app in Hnd as (_ & Hd & _).
      intros Hk. apply (Hd k Hk). left.
    + rewrite Hsplit in Hnd. apply NoDup_app in Hnd as (_ & _ & Hd).
      by apply NoDup_cons in Hd as [? _].
    + intros f' b' Hb' Hin'.
      assert (_freq s !! k = Some f') as Hf'.
      { apply (wf_index s Hwf). by exists b'. }
      congruence.
  - intros f b Hb. destruct (wf_bucket s Hwf f b Hb) as (_ & _ & Hne).
    split; [done|]. intros k Hin.
    assert (_freq s !! k = Some f) as Hf.
    { apply (wf_index s Hwf). by exists b. }
    split; [by eapply wf_in_values|done].
  - intros f. split.
    + intros [b Hb]. destruct (wf_bucket s Hwf f b Hb) as (_ & _ & Hne).
      destruct (DictCache.od b) as [|[k u] d] eqn:Ed; [done|].
      assert (_freq s !! k = Some f) as Hf.
      { apply (wf_index s Hwf). exists b. split; [done|]. rewrite Ed. left. }
      exists k. split; [by eapply wf_in_values|done].
    + intros (k & _ & Hf).
      destruct (proj1 (wf_index s Hwf k f) Hf) as (b & Hb & _). eauto.
Qed.

(** C5: on a key that is not stored, [get] and [delete] raise [KeyError]
    and leave the cache exactly as it was: value map, count map and
    frequency index with every bucket order. *)
Theorem not_found_leaves_cache_unchanged (size : Z) s key :
  reachable size s →
  key ∉ PyDict.keys (_values s) →
  LfuDictCache.__getitem__ key s = MkOut (inl KeyError) s [] ∧
  LfuDictCache.__delitem__ key s = MkOut (inl KeyError) s [].
Proof.
  intros [Hwf _]%reachable_wf Hk. split.
  - by apply getitem_raises.
  - by apply delitem_raises.
Qed.

(** C8: constructing with capacity 0 succeeds; whatever the caller then
    does, the three maps stay empty: every [set] returns without storing
    anything and every [get] raises [KeyError]. *)
Theorem zero_capacity_stores_nothing ops key (value : V) :
  let s0 : LfuDictCache.t K V := LfuDictCache.Mk 0 [] ∅ ∅ in
  LfuDictCache.__init__ 0 = inr s0 ∧
  run ops s0 = s0 ∧
  LfuDictCache.__len__ (run ops s0) = 0 ∧
  LfuDictCache.__setitem__ key value (run ops s0) = MkOut (inr tt) s0 [] ∧
  LfuDictCache.__getitem__ key (run ops s0) = MkOut (inl KeyError) s0 [].
Proof.
  intros s0.
  assert (LfuDictCache.__init__ 0 = inr s0) as Hinit by done.
  destruct (wf_init _ _ Hinit) as (_ & Hwf & _).
  assert (∀ op, step op s0 = s0) as Hstep.
  { intros [k|k v|k]; unfold step.
    - rewrite getitem_raises; [done|]. by intros ?%elem_of_nil.
    - by rewrite setitem_zero.
    - rewrite delitem_raises; [done..|]. by intros ?%elem_of_nil. }
  assert (run ops s0 = s0) as Hrun.
  { induction ops as [|op ops IH]; simpl; [done|]. by rewrite Hstep. }
  rewrite Hrun. split_and!; done.
Qed.

(** C9: along any sequence of operations on a cache of capacity [size],
    [DictCache.__setitem__] never takes its [popitem] branch, and every
    bucket was built with [maxsize = size] and holds at most [size] keys. *)
Theorem bucket_capacity_never_binds (size : Z) s0 ops :
  LfuDictCache.__init__ size = inr s0 →
  run_log ops s0 = [] ∧
  ∀ f b, _freq_to_lru (run ops s0) !! f = Some b →
    DictCache.maxsize b = size ∧ PyDict.len (DictCache.od b) ≤ size.
Proof.
  intros Hinit. destruct (wf_init _ _ Hinit) as (_ & Hwf0 & Hs0).
  destruct (run_wf ops s0 Hwf0) as (Hwf & Hlog & Hsz).
  assert (_max_size (run ops s0) = size) as Hsize.
  { rewrite Hsz, Hs0. done. }
  split; [done|]. intros f b Hb.
  destruct (wf_bucket _ Hwf f b Hb) as (Hmax & Hnd & _).
  split; [congruence|].
  pose proof (wf_len _ Hwf) as Hlen. rewrite Hsize in Hlen.
  assert (length (DictCache.od b) ≤ length (_values (run ops s0)))%nat.
  { apply length_keys_le; [done|]. intros x Hx.
    apply (in_bucket_in_values _ x f Hwf). by exists b. }
  unfold PyDict.len in *. lia.
Qed.

End cache_properties.

Section cache_properties_2.
Context {K : Type} `{!EqDecision K, !Countable K} {V : Type}.
Implicit Types (s : LfuDictCache.t K V) (k key : K) (f freq : Z)
  (op : Op K V) (ops : list (Op K V)).

Lemma touches_keep_keys s op :
  wf s → touches (PyDict.keys (_values s)) op →
  PyDict.keys (_values (step op s)) = PyDict.keys (_values s).
Proof.
  intros Hwf Ht. destruct op as [key|key value|key]; simpl in Ht; [| |done].
  - unfold step.
    destruct (step_get_cases key s Hwf) as [[Hk ->]|(v & f & _ & Hf & ->)];
      done.
  - unfold step.
    destruct (step_set_cases key value s Hwf)
      as [[_ ->]|[(_ & f & Hf & ->)|[(Hk & _)|(Hk & _)]]]; try done.
    simpl. by apply keys_setitem_elem.
Qed.

Lemma touches_run_keep_keys ops s :
  wf s → Forall (touches (PyDict.keys (_values s))) ops →
  PyDict.keys (_values (run ops s)) = PyDict.keys (_values s).
Proof.
  revert s. induction ops as [|op ops IH]; intros s Hwf Hall; simpl; [done|].
  apply Forall_cons in Hall as [Hop Hall].
  pose proof (touches_keep_keys s op Hwf Hop) as Hk.
  rewrite IH; [done|by apply step_wf|by rewrite Hk].
Qed.

(** C3: a [get] of a stored key and a [set] of a stored key both succeed,
    raise the key's count by exactly 1, leave every other count alone and
    remove no key. *)
Theorem touch_adds_one_to_count (size : Z) s key :
  reachable size s →
  key ∈ PyDict.keys (_values s) →
  ∃ freq stored,
    _freq s !! key = Some freq ∧
    PyDict.getitem key (_values s) = inr stored ∧
    (res (LfuDictCache.__getitem__ key s) = inr stored ∧
     _freq (st (LfuDictCache.__getitem__ key s)) !! key = Some (freq + 1) ∧
     (∀ k, k ≠ key →
        _freq (st (LfuDictCache.__getitem__ key s)) !! k = _freq s !! k) ∧
     _values (st (LfuDictCache.__getitem__ key s)) = _values s) ∧
    (∀ value,
       res (LfuDictCache.__setitem__ key value s) = inr tt ∧
       _freq (st (LfuDictCache.__setitem__ key value s)) !! key
         = Some (freq + 1) ∧
       (∀ k, k ≠ key →
          _freq (st (LfuDictCache.__setitem__ key value s)) !! k
            = _freq s !! k) ∧
       _values (st (LfuDictCache.__setitem__ key value s))
         = PyDict.setitem key value (_values s) ∧
       PyDict.keys (_values (st (LfuDictCache.__setitem__ key value s)))
         = PyDict.keys (_values s)).
Proof.
  intros [Hwf Hsz]%reachable_wf Hin.
  destruct (getitem_elem _ _ Hin) as [stored Hv].
  destruct (proj1 (wf_freq s Hwf key) Hin) as [freq Hf].
  exists freq, stored. split_and!; try done.
  - by rewrite (getitem_eq key stored freq s).
  - rewrite (getitem_eq key stored freq s) by done. simpl.
    apply lookup_insert_eq.
  - intros k Hne. rewrite (getitem_eq key stored freq s) by done. simpl.
    by apply lookup_insert_ne.
  - by rewrite (getitem_eq key stored freq s).
  - intros value.
    assert (_max_size s ≠ 0) as Hz.
    { pose proof (wf_len s Hwf) as Hlen. intros Hz. rewrite Hz in Hlen.
      destruct (_values s); [by apply elem_of_nil in Hin|].
      unfold PyDict.len in Hlen. simpl in Hlen. lia. }
    rewrite (setitem_present key value freq s) by done. simpl.
    split_and!; try done.
    + apply lookup_insert_eq.
    + intros k Hne. by apply lookup_insert_ne.
    + by apply keys_setitem_elem.
Qed.

(** C6: [iterate()] gives the keys of the value store in their order there.
    That order is the insertion order: gets and overwriting sets of stored
    keys, in any number, leave the sequence as it is; a [set] of a new key
    appends the key at the end, after the evicted key, if any, has been taken
    out; a [delete] takes its key out; nothing else changes the sequence. *)
Theorem iteration_is_insertion_order (size : Z) s :
  reachable size s →
  LfuDictCache.to_list (__iter__ s) s = Some (inr (PyDict.keys (_values s))) ∧
  (∀ ops, Forall (touches (PyDict.keys (_values s))) ops →
     PyDict.keys (_values (run ops s)) = PyDict.keys (_values s) ∧
     LfuDictCache.to_list (__iter__ (run ops s)) (run ops s)
       = LfuDictCache.to_list (__iter__ s) s) ∧
  (∀ key value, key ∉ PyDict.keys (_values s) →
     (size = 0 ∧
      PyDict.keys (_values (step (Set_ key value) s))
        = PyDict.keys (_values s)) ∨
     (LfuDictCache.__len__ s < size ∧
      PyDict.keys (_values (step (Set_ key value) s))
        = PyDict.keys (_values s) ++ [key]) ∨
     (0 < size ∧ LfuDictCache.__len__ s = size ∧
      ∃ e, e ∈ PyDict.keys (_values s) ∧
        PyDict.keys (_values (step (Set_ key value) s))
          = filter (λ x, x ≠ e) (PyDict.keys (_values s)) ++ [key])) ∧
  (∀ key, key ∈ PyDict.keys (_values s) →
     PyDict.keys (_values (step (Del key) s))
       = filter (λ x, x ≠ key) (PyDict.keys (_values s))) ∧
  (∀ key, key ∉ PyDict.keys (_values s) →
     PyDict.keys (_values (step (Get key) s)) = PyDict.keys (_values s) ∧
     PyDict.keys (_values (step (Del key) s)) = PyDict.keys (_values s)).
Proof.
  intros [Hwf Hsz]%reachable_wf.
  assert (∀ s : LfuDictCache.t K V,
            LfuDictCache.to_list (__iter__ s) s
            = Some (inr (PyDict.keys (_values s)))) as Hiter.
  { intros s'. apply to_list_iter. }
  split_and!.
  - apply Hiter.
  - intros ops Hall.
    pose proof (touches_run_keep_keys ops s Hwf Hall) as Hk.
    split; [done|]. by rewrite !Hiter, Hk.
  - intros key value Hk. unfold step.
    destruct (step_set_cases key value s Hwf)
      as [[Hz ->]|[(_ & f & Hf & _)|[(_ & Hlt & ->)
          |(_ & Hz & Hfull & e & f & b & rest & _ & _ & Hfe & ->)]]].
    + left. split; [congruence|done].
    + exfalso. apply Hk. by eapply wf_in_values.
    + right; left. split; [unfold LfuDictCache.__len__; congruence|].
      simpl. unfold PyDict.keys. by rewrite fmap_app.
    + right; right. pose proof (wf_capacity s Hwf).
      split_and!; [lia|unfold LfuDictCache.__len__; congruence|].
      exists e. split; [by eapply wf_in_values|].
      simpl. unfold PyDict.keys. rewrite fmap_app.
      fold (PyDict.keys (PyDict.remove e (_values s))).
      by rewrite keys_remove.
  - intros key Hin. unfold step.
    destruct (step_del_cases key s Hwf) as [[Hk _]|(f & Hf & ->)]; [done|].
    simpl. apply keys_remove.
  - intros key Hk. unfold step.
    rewrite getitem_raises, delitem_raises by done. done.
Qed.

(** C7, amended: [iterate()] returns a new iterator placed at the first key.
    Consumed while the cache is as it was, or after gets and overwriting sets
    of stored keys only, it yields the stored keys in insertion order and
    stops.  It reads the cache as it is when advanced: once the number of
    stored keys differs from what it was at the call, advancing raises
    [RuntimeError]. *)
Theorem iter_is_a_live_iterator (size : Z) s :
  reachable size s →
  __iter__ s = PyDict.MkIter (LfuDictCache.__len__ s) 0 true ∧
  LfuDictCache.to_list (__iter__ s) s = Some (inr (PyDict.keys (_values s))) ∧
  (∀ ops, Forall (touches (PyDict.keys (_values s))) ops →
     LfuDictCache.to_list (__iter__ s) (run ops s)
       = Some (inr (PyDict.keys (_values s)))) ∧
  (∀ s' : LfuDictCache.t K V,
     LfuDictCache.__len__ s' ≠ LfuDictCache.__len__ s →
     fst (__next__ (__iter__ s) s') = inl RuntimeError ∧
     LfuDictCache.to_list (__iter__ s) s' = Some (inl RuntimeError)).
Proof.
  intros [Hwf Hsz]%reachable_wf. split_and!.
  - done.
  - apply to_list_iter.
  - intros ops Hall. apply to_list_same_keys.
    by apply touches_run_keep_keys.
  - intros s' Hne. split.
    + unfold __next__, __iter__, PyDict.next, PyDict.iter.
      cbn [PyDict.it_live PyDict.it_used PyDict.it_pos].
      apply not_eq_sym, Z.eqb_neq in Hne.
      unfold LfuDictCache.__len__ in Hne. by rewrite Hne.
    + by apply to_list_resized.
Qed.

End cache_properties_2.

Section eviction.
Context {K : Type} `{!EqDecision K, !Countable K} {V : Type}.
Implicit Types (s : LfuDictCache.t K V) (k key : K) (f freq : Z)
  (op : Op K V) (ops : list (Op K V)).

(** C1: when a new key is set in a full cache of capacity at least 1, the
    bucket [b] of the smallest count [f] in the index is taken, no stored key
    having a smaller count; its front key [e] was touched before every other
    key of the bucket; [e] is removed as [delete] would remove it and the
    new key is then stored, so exactly [e] is gone and the cache is full
    again.  On scenario 2 of the test suite this leaves a=40, b=2, d=4 and
    [get(c)] raises [KeyError]. *)
Theorem eviction_takes_least_frequent_then_oldest
    (size : Z) (s0 : LfuDictCache.t K V) ops key (value : V) :
  (1 ≤ size →
   LfuDictCache.__init__ size = inr s0 →
   key ∉ PyDict.keys (_values (run ops s0)) →
   LfuDictCache.__len__ (run ops s0) = size →
   ∃ e f b rest,
     SortedDict.peekitem0 (_freq_to_lru (run ops s0)) = inr (f, b) ∧
     _freq_to_lru (run ops s0) !! f = Some b ∧
     (∀ k' f', _freq (run ops s0) !! k' = Some f' → f ≤ f') ∧
     DictCache.od b = (e, tt) :: rest ∧
     _freq (run ops s0) !! e = Some f ∧
     e ∈ PyDict.keys (_values (run ops s0)) ∧
     (∀ k', k' ∈ PyDict.keys rest →
        (last_touch ops e < last_touch ops k')%nat) ∧
     res (LfuDictCache.__delitem__ e (run ops s0)) = inr tt ∧
     LfuDictCache.__setitem__ key value (run ops s0) =
       MkOut (inr tt)
         (st (LfuDictCache.__setitem__ key value
                (st (LfuDictCache.__delitem__ e (run ops s0))))) [] ∧
     _values (st (LfuDictCache.__setitem__ key value (run ops s0)))
       = PyDict.remove e (_values (run ops s0)) ++ [(key, value)] ∧
     LfuDictCache.__len__
       (st (LfuDictCache.__setitem__ key value (run ops s0))) = size) ∧
  (LfuDictCache.__init__ 3 = inr cache3 ∧
   _values (run scenario2 cache3) = [("a", 40); ("b", 2); ("d", 4)]%string ∧
   LfuDictCache.__getitem__ "c"%string (run scenario2 cache3)
     = MkOut (inl KeyError) (run scenario2 cache3) [] ∧
   res (LfuDictCache.__getitem__ "a"%string (run scenario2 cache3)) = inr 40 ∧
   res (LfuDictCache.__getitem__ "b"%string (run scenario2 cache3)) = inr 2 ∧
   res (LfuDictCache.__getitem__ "d"%string (run scenario2 cache3)) = inr 4).
Proof.
  split; [|by vm_compute].
  intros Hsize Hinit Hk Hfull.
  pose proof (recency_run ops s0 size Hinit) as Hrec.
  destruct (wf_init _ _ Hinit) as (_ & Hwf0 & Hs0).
  destruct (run_wf ops s0 Hwf0) as (Hwf & _ & Hsz).
  set (s := run ops s0) in *.
  assert (_max_size s = size) as Hmax by (rewrite Hsz, Hs0; done).
  destruct (setitem_new_full key value s Hwf Hk)
    as (e & f & b & rest & Hpeek & Hod & Hfe & Hset).
  { lia. }
  { unfold LfuDictCache.__len__ in Hfull. congruence. }
  destruct (peekitem0_min _ _ _ Hpeek) as [Hb Hmin].
  pose proof (wf_in_values _ _ _ Hwf Hfe) as Hein.
  pose proof (delitem_eq e f s Hwf Hfe) as Hdel.
  exists e, f, b, rest. split_and!; try done.
  - intros k' f' Hf'. apply Hmin.
    destruct (proj1 (wf_index s Hwf k' f') Hf') as (b' & Hb' & _). eauto.
  - intros k' Hk'. specialize (Hrec f b Hb). rewrite Hod in Hrec.
    unfold PyDict.keys in Hrec. rewrite fmap_cons in Hrec.
    apply StronglySorted_cons in Hrec as [Hall _].
    by apply (proj1 (Forall_forall _ _) Hall).
  - by rewrite Hdel.
  - rewrite Hset, Hdel. cbn [st].
    rewrite setitem_new_room; [done|by apply wf_removed| |].
    + simpl. rewrite elem_of_keys_remove. tauto.
    + simpl. pose proof (length_remove e _ (wf_values s Hwf) Hein).
      unfold LfuDictCache.__len__, PyDict.len in *. lia.
  - by rewrite Hset.
  - rewrite Hset. unfold LfuDictCache.__len__, PyDict.len in *.
    cbn [st inserted removed _values]. rewrite length_app. simpl.
    pose proof (length_remove e _ (wf_values s Hwf) Hein). lia.
Qed.

End eviction.

(** C7, as stated, fails: an iterator made on a cache holding one key, then
    advanced after a second key has been set, raises [RuntimeError] instead
    of yielding the key the cache had at the call. *)
Lemma iter_is_not_a_snapshot :
  reachable 3 one_key ∧
  LfuDictCache.to_list (__iter__ one_key) (step (Set_ "b"%string 2) one_key)
  = Some (inl RuntimeError) ∧
  PyDict.keys (_values one_key) = ["a"%string] ∧
  ¬ iter_is_snapshot (K:=string) (V:=Z) 3.
Proof.
  assert (reachable 3 one_key) as Hreach.
  { exists cache3, [Set_ "a"%string 1]. done. }
  split_and!; [done|by vm_compute|by vm_compute|].
  intros Hsnap.
  specialize (Hsnap _ (Set_ "b"%string 2) Hreach).
  vm_compute in Hsnap. discriminate.
Qed.

(** * The properties on the caches of the test suite *)

Lemma full3_reachable : reachable 3 full3.
Proof. exists cache3, prepare. split; reflexivity. Defined.

Lemma one_key_reachable : reachable 3 one_key.
Proof. exists cache3, [Set_ "a"%string 1]. split; reflexivity. Defined.

Lemma len_never_exceeds_capacity_witness :
  0 ≤ 3 ∧
  ∃ s0, LfuDictCache.__init__ 3 = inr s0 ∧
        LfuDictCache.__len__ (run (take 5 scenario2) s0) ≤ 3.
Proof.
  split; [lia|].
  apply (len_never_exceeds_capacity (K:=string) (V:=Z) 3 scenario2 5). lia.
Defined.

Lemma not_found_leaves_cache_unchanged_witness :
  reachable 3 full3 ∧
  ("x"%string ∉ PyDict.keys (_values full3)) ∧
  LfuDictCache.__getitem__ "x"%string full3 = MkOut (inl KeyError) full3 [] ∧
  LfuDictCache.__delitem__ "x"%string full3 = MkOut (inl KeyError) full3 [].
Proof.
  assert ("x"%string ∉ PyDict.keys (_values full3)) as Hx.
  { refine (bool_decide_unpack _ _). vm_compute. exact I. }
  split; [exact full3_reachable|]. split; [exact Hx|].
  apply (not_found_leaves_cache_unchanged 3 full3 "x"%string);
    [exact full3_reachable|exact Hx].
Defined.

Lemma bucket_capacity_never_binds_witness :
  LfuDictCache.__init__ 3 = inr cache3 ∧
  run_log scenario2 cache3 = [] ∧
  ∀ f b, _freq_to_lru (run scenario2 cache3) !! f = Some b →
    DictCache.maxsize b = 3 ∧ PyDict.len (DictCache.od b) ≤ 3.
Proof.
  split; [reflexivity|].
  apply (bucket_capacity_never_binds 3 cache3 scenario2). reflexivity.
Defined.

Lemma touch_adds_one_to_count_witness :
  reachable 3 full3 ∧
  "b"%string ∈ PyDict.keys (_values full3) ∧
  ∃ freq stored,
    _freq full3 !! "b"%string = Some freq ∧
    PyDict.getitem "b"%string (_values full3) = inr stored ∧
    (res (LfuDictCache.__getitem__ "b"%string full3) = inr stored ∧
     _freq (st (LfuDictCache.__getitem__ "b"%string full3)) !! "b"%string = Some (freq + 1) ∧
     (∀ k, k ≠ "b"%string →
        _freq (st (LfuDictCache.__getitem__ "b"%string full3)) !! k = _freq full3 !! k) ∧
     _values (st (LfuDictCache.__getitem__ "b"%string full3)) = _values full3) ∧
    (∀ value,
       res (LfuDictCache.__setitem__ "b"%string value full3) = inr tt ∧
       _freq (st (LfuDictCache.__setitem__ "b"%string value full3)) !! "b"%string
         = Some (freq + 1) ∧
       (∀ k, k ≠ "b"%string →
          _freq (st (LfuDictCache.__setitem__ "b"%string value full3)) !! k
            = _freq full3 !! k) ∧
       _values (st (LfuDictCache.__setitem__ "b"%string value full3))
         = PyDict.setitem "b"%string value (_values full3) ∧
       PyDict.keys (_values (st (LfuDictCache.__setitem__ "b"%string value full3)))
         = PyDict.keys (_values full3)).
Proof.
  assert ("b"%string ∈ PyDict.keys (_values full3)) as Hb.
  { refine (bool_decide_unpack _ _). vm_compute. exact I. }
  split; [exact full3_reachable|]. split; [exact Hb|].
  apply (touch_adds_one_to_count 3 full3 "b"%string);
    [exact full3_reachable|exact Hb].
Defined.

Lemma structure_is_well_formed_witness :
  reachable 3 full3 ∧
  NoDup (PyDict.keys (_values full3)) ∧
  (∀ k, is_Some (_freq full3 !! k) ↔ k ∈ PyDict.keys (_values full3)) ∧
  (∀ k, k ∈ PyDict.keys (_values full3) →
     ∃ f b l1 l2,
       _freq full3 !! k = Some f ∧
       _freq_to_lru full3 !! f = Some b ∧
       PyDict.keys (DictCache.od b) = l1 ++ k :: l2 ∧ (k ∉ l1) ∧ (k ∉ l2) ∧
       ∀ f' b', _freq_to_lru full3 !! f' = Some b' →
                k ∈ PyDict.keys (DictCache.od b') → f' = f) ∧
  (∀ f b, _freq_to_lru full3 !! f = Some b →
     DictCache.od b ≠ [] ∧
     ∀ k, k ∈ PyDict.keys (DictCache.od b) →
          k ∈ PyDict.keys (_values full3) ∧ _freq full3 !! k = Some f) ∧
  (∀ f, is_Some (_freq_to_lru full3 !! f) ↔
        ∃ k, k ∈ PyDict.keys (_values full3) ∧ _freq full3 !! k = Some f).
Proof.
  split; [exact full3_reachable|].
  apply (structure_is_well_formed 3 full3). exact full3_reachable.
Defined.

Lemma iteration_is_insertion_order_witness :
  reachable 3 full3 ∧
  LfuDictCache.to_list (__iter__ full3) full3 = Some (inr (PyDict.keys (_values full3))) ∧
  (∀ ops, Forall (touches (PyDict.keys (_values full3))) ops →
     PyDict.keys (_values (run ops full3)) = PyDict.keys (_values full3) ∧
     LfuDictCache.to_list (__iter__ (run ops full3)) (run ops full3)
       = LfuDictCache.to_list (__iter__ full3) full3) ∧
  (∀ key value, key ∉ PyDict.keys (_values full3) →
     (3 = 0 ∧
      PyDict.keys (_values (step (Set_ key value) full3))
        = PyDict.keys (_values full3)) ∨
     (LfuDictCache.__len__ full3 < 3 ∧
      PyDict.keys (_values (step (Set_ key value) full3))
        = PyDict.keys (_values full3) ++ [key]) ∨
     (0 < 3 ∧ LfuDictCache.__len__ full3 = 3 ∧
      ∃ e, e ∈ PyDict.keys (_values full3) ∧
        PyDict.keys (_values (step (Set_ key value) full3))
          = filter (λ x, x ≠ e) (PyDict.keys (_values full3)) ++ [key])) ∧
  (∀ key, key ∈ PyDict.keys (_values full3) →
     PyDict.keys (_values (step (Del key) full3))
       = filter (λ x, x ≠ key) (PyDict.keys (_values full3))) ∧
  (∀ key, key ∉ PyDict.keys (_values full3) →
     PyDict.keys (_values (step (Get key) full3)) = PyDict.keys (_values full3) ∧
     PyDict.keys (_values (step (Del key) full3)) = PyDict.keys (_values full3)).
Proof.
  split; [exact full3_reachable|].
  apply (iteration_is_insertion_order 3 full3). exact full3_reachable.
Defined.

Lemma iter_is_a_live_iterator_witness :
  reachable 3 one_key ∧
  __iter__ one_key = PyDict.MkIter (LfuDictCache.__len__ one_key) 0 true ∧
  LfuDictCache.to_list (__iter__ one_key) one_key = Some (inr (PyDict.keys (_values one_key))) ∧
  (∀ ops, Forall (touches (PyDict.keys (_values one_key))) ops →
     LfuDictCache.to_list (__iter__ one_key) (run ops one_key)
       = Some (inr (PyDict.keys (_values one_key)))) ∧
  (∀ s' : LfuDictCache.t string Z,
     LfuDictCache.__len__ s' ≠ LfuDictCache.__len__ one_key →
     fst (__next__ (__iter__ one_key) s') = inl RuntimeError ∧
     LfuDictCache.to_list (__iter__ one_key) s' = Some (inl RuntimeError)).
Proof.
  split; [exact one_key_reachable|].
  apply (iter_is_a_live_iterator 3 one_key). exact one_key_reachable.
Defined.

Lemma eviction_takes_least_frequent_then_oldest_witness :
  1 ≤ 3 ∧
  LfuDictCache.__init__ 3 = inr cache3 ∧
  ("d"%string ∉ PyDict.keys (_values full3)) ∧
  LfuDictCache.__len__ full3 = 3 ∧
  ∃ e f b rest,
     SortedDict.peekitem0 (_freq_to_lru full3) = inr (f, b) ∧
     _freq_to_lru full3 !! f = Some b ∧
     (∀ k' f', _freq full3 !! k' = Some f' → f ≤ f') ∧
     DictCache.od b = (e, tt) :: rest ∧
     _freq full3 !! e = Some f ∧
     e ∈ PyDict.keys (_values full3) ∧
     (∀ k', k' ∈ PyDict.keys rest →
        (last_touch prepare e < last_touch prepare k')%nat) ∧
     res (LfuDictCache.__delitem__ e full3) = inr tt ∧
     LfuDictCache.__setitem__ "d"%string 4 full3 =
       MkOut (inr tt)
         (st (LfuDictCache.__setitem__ "d"%string 4
                (st (LfuDictCache.__delitem__ e full3)))) [] ∧
     _values (st (LfuDictCache.__setitem__ "d"%string 4 full3))
       = PyDict.remove e (_values full3) ++ [("d"%string, 4)] ∧
     LfuDictCache.__len__
       (st (LfuDictCache.__setitem__ "d"%string 4 full3)) = 3.
Proof.
  assert ("d"%string ∉ PyDict.keys (_values full3)) as Hd.
  { refine (bool_decide_unpack _ _). vm_compute. exact I. }
  split; [lia|]. split; [reflexivity|]. split; [exact Hd|].
  split; [reflexivity|].
  apply (proj1 (eviction_takes_least_frequent_then_oldest
                  3 cache3 prepare "d"%string 4));
    [lia|reflexivity|exact Hd|reflexivity].
Defined.

(** * Further properties of [DictCache] *)

Section dictcache_more.
Context {K : Type} `{!EqDecision K} {V : Type}.
Implicit Types (k key : K) (v value : V) (d l r : list (K * V))
  (c : DictCache.t K V).

Lemma getitem_app_r k l d :
  k ∉ PyDict.keys l → PyDict.getitem k (l ++ d) = PyDict.getitem k d.
Proof.
  unfold PyDict.keys. induction l as [|[k' v'] l IH]; simpl; [done|].
  intros [Hne Hn]%not_elem_of_cons. rewrite decide_False by done. auto.
Qed.

Lemma getitem_here k v l r :
  k ∉ PyDict.keys l → PyDict.getitem k (l ++ (k, v) :: r) = inr v.
Proof. intros Hk. rewrite getitem_app_r by done. simpl. by rewrite decide_True. Qed.

Lemma remove_app k l r :
  PyDict.remove k (l ++ r) = PyDict.remove k l ++ PyDict.remove k r.
Proof. apply filter_app. Qed.

Lemma remove_cons_eq k v d : PyDict.remove k ((k, v) :: d) = PyDict.remove k d.
Proof. unfold PyDict.remove. rewrite filter_cons_False; [done|]. simpl. by intros []. Qed.

Lemma remove_cons_ne k k' v d :
  k' ≠ k → PyDict.remove k ((k', v) :: d) = (k', v) :: PyDict.remove k d.
Proof. intros Hne. unfold PyDict.remove. by rewrite filter_cons_True. Qed.

(** A stored key splits the map around its only entry. *)
Lemma getitem_split k v d :
  NoDup (PyDict.keys d) → PyDict.getitem k d = inr v →
  ∃ l r, d = l ++ (k, v) :: r ∧ PyDict.remove k d = l ++ r ∧
         (k ∉ PyDict.keys l) ∧ (k ∉ PyDict.keys r).
Proof.
  unfold PyDict.keys. induction d as [|[k' v'] d IH]; simpl; [done|].
  intros [Hn Hnd]%NoDup_cons. destruct (decide (k' = k)) as [->|Hne].
  - intros [= ->]. exists [], d. rewrite remove_cons_eq.
    rewrite remove_not_elem by done. split_and!; try done.
    by intros ?%elem_of_nil.
  - intros Hget. destruct (IH Hnd Hget) as (l & r & -> & Hrem & Hl & Hr).
    exists ((k', v') :: l), r. rewrite remove_cons_ne by done.
    rewrite Hrem. split_and!; try done.
    rewrite fmap_cons. intros [?|?]%elem_of_cons; [simpl in *; congruence|done].
Qed.

Lemma DictCache_getitem_eq key c :
  DictCache.__getitem__ key c =
    match PyDict.getitem key (DictCache.od c) with
    | inl e => MkOut (inl e) c []
    | inr v =>
        MkOut (inr v)
          (DictCache.Mk (DictCache.maxsize c)
             (PyDict.remove key (DictCache.od c) ++ [(key, v)])) []
    end.
Proof.
  unfold DictCache.__getitem__, bind, DictCache.super_getitem,
    DictCache.move_to_end, try_update, PyDict.move_to_end, ret.
  destruct (PyDict.getitem key (DictCache.od c)) as [e|v] eqn:E; simpl; [done|].
  by rewrite E.
Qed.

(** X1: reading a key that is not in the map raises [KeyError] and leaves
    the map as it is; reading a stored key returns its value and moves its
    entry to the most recent end, the other entries keeping their order. *)
Theorem DictCache_get_touches_or_raises key c :
  NoDup (PyDict.keys (DictCache.od c)) →
  (key ∉ PyDict.keys (DictCache.od c) →
   DictCache.__getitem__ key c = MkOut (inl KeyError) c []) ∧
  (key ∈ PyDict.keys (DictCache.od c) →
   ∃ v l r,
     DictCache.od c = l ++ (key, v) :: r ∧
     DictCache.__getitem__ key c =
       MkOut (inr v) (DictCache.Mk (DictCache.maxsize c) (l ++ r ++ [(key, v)])) []).
Proof.
  intros Hnd. split.
  - intros Hk. rewrite DictCache_getitem_eq. by rewrite getitem_not_elem.
  - intros Hk. destruct (getitem_elem _ _ Hk) as [v Hv].
    destruct (getitem_split _ _ _ Hnd Hv) as (l & r & Hd & Hrem & _).
    exists v, l, r. split; [done|].
    rewrite DictCache_getitem_eq, Hv, Hrem. by rewrite <- app_assoc.
Qed.

(** X2: a write to a map that holds no key twice and is within its bound
    drops an entry only when the key is new and the map is full, and then it
    drops exactly the oldest entry; the written key always ends up at the
    most recent end. *)
Theorem DictCache_set_drops_only_the_oldest key value c :
  NoDup (PyDict.keys (DictCache.od c)) →
  PyDict.len (DictCache.od c) ≤ DictCache.maxsize c →
  (key ∈ PyDict.keys (DictCache.od c) →
   DictCache.__setitem__ key value c =
     MkOut (inr tt)
       (DictCache.Mk (DictCache.maxsize c)
          (PyDict.remove key (DictCache.od c) ++ [(key, value)])) []) ∧
  (key ∉ PyDict.keys (DictCache.od c) →
   PyDict.len (DictCache.od c) < DictCache.maxsize c →
   DictCache.__setitem__ key value c =
     MkOut (inr tt)
       (DictCache.Mk (DictCache.maxsize c)
          (DictCache.od c ++ [(key, value)])) []) ∧
  (key ∉ PyDict.keys (DictCache.od c) →
   PyDict.len (DictCache.od c) = DictCache.maxsize c →
   1 ≤ DictCache.maxsize c →
   ∃ oldest rest,
     DictCache.od c = oldest :: rest ∧
     DictCache.__setitem__ key value c =
       MkOut (inr tt)
         (DictCache.Mk (DictCache.maxsize c) (rest ++ [(key, value)]))
         [PopOldest]).
Proof.
  intros Hnd Hlen. split_and!.
  - intros Hk. apply DictCache_setitem_fits.
    pose proof (length_remove key _ Hnd Hk). unfold PyDict.len in *. lia.
  - intros Hk Hlt. rewrite DictCache_setitem_fits.
    + by rewrite remove_not_elem.
    + by rewrite remove_not_elem.
  - intros Hk Hfull Hpos.
    destruct (DictCache.od c) as [|oldest rest] eqn:Ed.
    { unfold PyDict.len in Hfull. simpl in Hfull. lia. }
    exists oldest, rest. split; [done|].
    rewrite DictCache_setitem_eq. rewrite Ed.
    rewrite remove_not_elem by done. cbn zeta.
    assert ((DictCache.maxsize c <? PyDict.len ((oldest :: rest) ++ [(key, value)])) = true) as ->.
    { apply Z.ltb_lt. unfold PyDict.len in *. rewrite length_app. simpl in *. lia. }
    done.
Qed.

Lemma NoDup_keys_moved k v d :
  NoDup (PyDict.keys d) →
  NoDup (PyDict.keys (PyDict.remove k d ++ [(k, v)])).
Proof.
  intros Hnd. unfold PyDict.keys. rewrite fmap_app. apply NoDup_app.
  split_and!; [by apply NoDup_keys_remove| |apply NoDup_singleton].
  intros x [Hne _]%elem_of_keys_remove ->%list_elem_of_singleton. done.
Qed.

Lemma length_tail_pred d : length (tail d) = Nat.pred (length d).
Proof. by destruct d. Qed.

Lemma NoDup_keys_tail d : NoDup (PyDict.keys d) → NoDup (PyDict.keys (tail d)).
Proof. destruct d as [|kv d]; simpl; [done|]. by intros [_ ?]%NoDup_cons. Qed.

Lemma getitem_inr_key k v d : PyDict.getitem k d = inr v → k ∈ PyDict.keys d.
Proof.
  intros Hin%getitem_inr_elem. unfold PyDict.keys.
  apply list_elem_of_fmap. by exists (k, v).
Qed.

(** The invariant of a map used through its three operations. *)
Lemma DictCache_step_bounded (m : Z) (op : DictCacheUse.Op K V) c :
  NoDup (PyDict.keys (DictCache.od c)) →
  PyDict.len (DictCache.od c) ≤ Z.max 0 m →
  DictCache.maxsize c = m →
  NoDup (PyDict.keys (DictCache.od (DictCacheUse.step op c))) ∧
  PyDict.len (DictCache.od (DictCacheUse.step op c)) ≤ Z.max 0 m ∧
  DictCache.maxsize (DictCacheUse.step op c) = m.
Proof.
  intros Hnd Hlen Hm. destruct op as [key|key value|key]; unfold DictCacheUse.step.
  - rewrite DictCache_getitem_eq.
    destruct (PyDict.getitem key (DictCache.od c)) as [e|v] eqn:E; simpl; [done|].
    split_and!; [by apply NoDup_keys_moved| |done].
    pose proof (length_remove key _ Hnd (getitem_inr_key _ _ _ E)).
    unfold PyDict.len in *. rewrite length_app. simpl. lia.
  - rewrite DictCache_setitem_eq. cbn zeta.
    pose proof (NoDup_keys_moved key value _ Hnd) as Hnd'.
    pose proof (length_remove_le key (DictCache.od c)) as Hle.
    destruct (_ <? _) eqn:E; simpl.
    + split_and!; [by apply NoDup_keys_tail| |done].
      unfold PyDict.len in *. rewrite length_tail_pred, length_app. simpl. lia.
    + apply Z.ltb_ge in E. split_and!; [done|lia|done].
  - unfold DictCache.__delitem__, try_update, PyDict.delitem.
    destruct (PyDict.contains key (DictCache.od c)); simpl; [|done].
    split_and!; [by apply NoDup_keys_remove| |done].
    pose proof (length_remove_le key (DictCache.od c)).
    unfold PyDict.len in *. lia.
Qed.

(** X3: whatever is done to a map made by [DictCache(maxsize)], it never
    holds a key twice and never more than [maxsize] entries, none at all when
    [maxsize] is zero or negative, which the constructor accepts. *)
Theorem DictCache_len_never_exceeds_maxsize
    (maxsize : Z) (ops : list (DictCacheUse.Op K V)) :
  NoDup (PyDict.keys
    (DictCache.od (DictCacheUse.run ops (DictCache.__init__ maxsize)))) ∧
  PyDict.len (DictCache.od (DictCacheUse.run ops (DictCache.__init__ maxsize)))
    ≤ Z.max 0 maxsize ∧
  DictCache.maxsize (DictCacheUse.run ops (DictCache.__init__ maxsize)) = maxsize.
Proof.
  assert (∀ c : DictCache.t K V,
    NoDup (PyDict.keys (DictCache.od c)) →
    PyDict.len (DictCache.od c) ≤ Z.max 0 maxsize →
    DictCache.maxsize c = maxsize →
    NoDup (PyDict.keys (DictCache.od (DictCacheUse.run ops c))) ∧
    PyDict.len (DictCache.od (DictCacheUse.run ops c)) ≤ Z.max 0 maxsize ∧
    DictCache.maxsize (DictCacheUse.run ops c) = maxsize) as Hrun.
  { induction ops as [|op ops IH]; intros c Hnd Hlen Hm; simpl; [done|].
    destruct (DictCache_step_bounded maxsize op c Hnd Hlen Hm) as (? & ? & ?).
    by apply IH. }
  apply Hrun; simpl; [apply NoDup_nil_2|unfold PyDict.len; simpl; lia|done].
Qed.

(** X4: with [maxsize] at least 1, a key reads back the value just written
    to it, whatever the map held. *)
Theorem DictCache_set_then_get key value c :
  1 ≤ DictCache.maxsize c →
  res (DictCache.__getitem__ key (st (DictCache.__setitem__ key value c)))
  = inr value.
Proof.
  intros Hpos. rewrite DictCache_setitem_eq. cbn zeta.
  assert (key ∉ PyDict.keys (PyDict.remove key (DictCache.od c))) as Hk.
  { rewrite elem_of_keys_remove. tauto. }
  destruct (_ <? _) eqn:E; cbn [st]; rewrite DictCache_getitem_eq; cbn [DictCache.od].
  - apply Z.ltb_lt in E. unfold PyDict.len in E. rewrite length_app in E.
    simpl in E.
    destruct (PyDict.remove key (DictCache.od c)) as [|x l] eqn:El;
      [simpl in E; lia|].
    simpl. rewrite (getitem_here key value l []); [done|].
    intros Hin. apply Hk. unfold PyDict.keys in *. rewrite fmap_cons. by right.
  - by rewrite (getitem_here key value _ []).
Qed.

End dictcache_more.

Section dictcache_recency.
Context {K : Type} `{!EqDecision K} {V : Type}.
Implicit Types (k key : K) (v value : V) (d l r : list (K * V))
  (c : DictCache.t K V).

Lemma recent_within_set j key value c k' v' :
  DictCacheUse.recent_within j key value c → k' ≠ key →
  Z.of_nat j + 2 ≤ DictCache.maxsize c →
  DictCacheUse.recent_within (Datatypes.S j) key value (st (DictCache.__setitem__ k' v' c)) ∧
  DictCache.maxsize (st (DictCache.__setitem__ k' v' c)) = DictCache.maxsize c.
Proof.
  intros (l & r & Hod & Hl & Hr & Hj) Hne Hm.
  rewrite DictCache_setitem_eq. cbn zeta. rewrite Hod.
  rewrite remove_app, remove_cons_ne by done.
  assert (Hr' : key ∉ PyDict.keys (PyDict.remove k' r ++ [(k', v')])).
  { unfold PyDict.keys. rewrite fmap_app. intros [Hin|Hin]%elem_of_app.
    - apply elem_of_keys_remove in Hin as [_ Hin]. done.
    - simpl in Hin. apply list_elem_of_singleton in Hin. done. }
  assert (Hlen : (length (PyDict.remove k' r ++ [(k', v')]) ≤ Datatypes.S j)%nat).
  { rewrite length_app. simpl. pose proof (length_remove_le k' r). lia. }
  assert (Hl' : key ∉ PyDict.keys (PyDict.remove k' l)).
  { intros [_ Hin]%elem_of_keys_remove. done. }
  rewrite <- app_assoc. rewrite <- app_comm_cons.
  destruct (_ <? _) eqn:E; cbn [st DictCache.maxsize].
  - apply Z.ltb_lt in E. split; [|done].
    destruct (PyDict.remove k' l) as [|x l'] eqn:El.
    + exfalso. unfold PyDict.len in E. simpl in E. lia.
    + exists l', (PyDict.remove k' r ++ [(k', v')]). simpl.
      split_and!; try done.
      intros Hin. apply Hl'. unfold PyDict.keys in *. rewrite fmap_cons. by right.
  - split; [|done].
    exists (PyDict.remove k' l), (PyDict.remove k' r ++ [(k', v')]).
    split_and!; done.
Qed.

Lemma recent_within_run j key value c (others : list (K * V)) :
  DictCacheUse.recent_within j key value c →
  Forall (λ kv, kv.1 ≠ key) others →
  Z.of_nat j + Z.of_nat (length others) < DictCache.maxsize c →
  ∃ j', DictCacheUse.recent_within j' key value
          (DictCacheUse.run (map (λ kv, DictCacheUse.Set_ kv.1 kv.2) others) c).
Proof.
  revert j c. induction others as [|[k' v'] others IH]; intros j c Hrec Hall Hm.
  - exists j. done.
  - apply Forall_cons in Hall as [Hne Hall]. simpl in Hne.
    cbn [map DictCacheUse.run DictCacheUse.step fst snd].
    destruct (recent_within_set j key value c k' v' Hrec Hne) as [Hrec' Hsz].
    { simpl in Hm. lia. }
    apply (IH (Datatypes.S j)); [done|done|]. rewrite Hsz. simpl in Hm. lia.
Qed.

(** X5: the key written last stays readable, with its value, through the
    writes of up to [maxsize - 1] other keys. *)
Theorem DictCache_recent_key_survives key value c (others : list (K * V)) :
  Forall (λ kv, kv.1 ≠ key) others →
  Z.of_nat (length others) < DictCache.maxsize c →
  res (DictCache.__getitem__ key
         (DictCacheUse.run (map (λ kv, DictCacheUse.Set_ kv.1 kv.2) others)
            (st (DictCache.__setitem__ key value c))))
  = inr value.
Proof.
  intros Hall Hm.
  assert (DictCacheUse.recent_within 0 key value (st (DictCache.__setitem__ key value c)) ∧
          DictCache.maxsize (st (DictCache.__setitem__ key value c))
          = DictCache.maxsize c) as [Hrec Hsz].
  { rewrite DictCache_setitem_eq. cbn zeta.
    assert (key ∉ PyDict.keys (PyDict.remove key (DictCache.od c))) as Hk.
    { rewrite elem_of_keys_remove. tauto. }
    destruct (_ <? _) eqn:E; cbn [st DictCache.maxsize]; (split; [|done]).
    - apply Z.ltb_lt in E. unfold PyDict.len in E. rewrite length_app in E.
      simpl in E.
      destruct (PyDict.remove key (DictCache.od c)) as [|x l] eqn:El;
        [simpl in E; lia|].
      exists l, []. simpl. split_and!; [done| |by intros ?%elem_of_nil|lia].
      intros Hin. apply Hk. unfold PyDict.keys in *. rewrite fmap_cons. by right.
    - exists (PyDict.remove key (DictCache.od c)), [].
      split_and!; [done|done|by intros ?%elem_of_nil|simpl; lia]. }
  destruct (recent_within_run 0 key value _ others Hrec Hall)
    as (j' & l & r & Hod & Hl & _).
  { rewrite Hsz. lia. }
  rewrite DictCache_getitem_eq, Hod. by rewrite getitem_here.
Qed.

End dictcache_recency.

(** * Further properties of [LfuDictCache] *)

Section pydict_more.
Context {K : Type} `{!EqDecision K} {V : Type}.
Implicit Types (k : K) (v : V) (d : list (K * V)).

Lemma getitem_remove_ne k e d :
  k ≠ e → PyDict.getitem k (PyDict.remove e d) = PyDict.getitem k d.
Proof.
  intros Hne. induction d as [|[k' v'] d IH]; [done|].
  destruct (decide (k' = e)) as [->|Hk'].
  - rewrite remove_cons_eq. simpl. rewrite decide_False by done. done.
  - rewrite remove_cons_ne by done. simpl. by rewrite IH.
Qed.

Lemma getitem_snoc_ne k k0 v d :
  k ≠ k0 → PyDict.getitem k (d ++ [(k0, v)]) = PyDict.getitem k d.
Proof.
  intros Hne. induction d as [|[k' v'] d IH]; simpl.
  - by rewrite decide_False.
  - by rewrite IH.
Qed.

Lemma getitem_snoc_new k v d :
  k ∉ PyDict.keys d → PyDict.getitem k (d ++ [(k, v)]) = inr v.
Proof. intros Hk. by apply getitem_here. Qed.

End pydict_more.

Section cache_more.
Context {K : Type} `{!EqDecision K, !Countable K} {V : Type}.
Implicit Types (s : LfuDictCache.t K V) (k key : K) (f freq : Z)
  (op : Op K V) (ops : list (Op K V)).

(** X6: a [set] never raises; [get] and [delete] raise exactly when the key
    is not stored, and then it is [KeyError]: the [IndexError] of an empty
    index, the [StopIteration] of an empty bucket and the [KeyError] of a
    missing bucket are never met. *)
Theorem only_missing_keys_raise (size : Z) s :
  reachable size s →
  (∀ key value, res (LfuDictCache.__setitem__ key value s) = inr tt) ∧
  (∀ key, key ∈ PyDict.keys (_values s) →
     (∃ value, res (LfuDictCache.__getitem__ key s) = inr value) ∧
     res (LfuDictCache.__delitem__ key s) = inr tt) ∧
  (∀ key, key ∉ PyDict.keys (_values s) →
     res (LfuDictCache.__getitem__ key s) = inl KeyError ∧
     res (LfuDictCache.__delitem__ key s) = inl KeyError).
Proof.
  intros [Hwf _]%reachable_wf. split_and!.
  - intros key value.
    destruct (step_set_cases key value s Hwf)
      as [[_ ->]|[(_ & f & _ & ->)|[(_ & _ & ->)
          |(_ & _ & _ & e & f & b & rest & _ & _ & _ & ->)]]]; done.
  - intros key Hin. split.
    + destruct (step_get_cases key s Hwf) as [[Hk _]|(v & f & _ & _ & ->)];
        [done|eauto].
    + destruct (step_del_cases key s Hwf) as [[Hk _]|(f & _ & ->)]; done.
  - intros key Hk.
    by rewrite getitem_raises, delitem_raises.
Qed.

(** X7: on a cache of capacity at least 1, a key reads back the value just
    set for it, whether the key was stored before or not and whether the
    cache was full or not. *)
Theorem set_then_get (size : Z) s key (value : V) :
  1 ≤ size → reachable size s →
  res (LfuDictCache.__getitem__ key
         (st (LfuDictCache.__setitem__ key value s))) = inr value.
Proof.
  intros Hsize Hreach. destruct (reachable_wf _ _ Hreach) as [Hwf Hsz].
  assert (wf (step (Set_ key value) s)) as Hwf' by (by apply step_wf).
  unfold step in Hwf'.
  assert (PyDict.getitem key
            (_values (st (LfuDictCache.__setitem__ key value s)))
          = inr value) as Hget.
  { destruct (step_set_cases key value s Hwf)
      as [[Hz _]|[(_ & f & _ & ->)|[(Hk & _ & ->)
          |(Hk & _ & _ & e & f & b & rest & _ & _ & _ & ->)]]]; simpl.
    - lia.
    - apply getitem_setitem.
    - by apply getitem_snoc_new.
    - apply getitem_snoc_new. rewrite elem_of_keys_remove. tauto. }
  set (s' := st (LfuDictCache.__setitem__ key value s)) in *.
  destruct (step_get_cases key s' Hwf') as [[Hk _]|(v & f & Hv & _ & ->)].
  - exfalso. apply Hk. by eapply getitem_inr_key.
  - simpl. congruence.
Qed.

Lemma value_step s op key :
  wf s →
  (∀ value, op ≠ Set_ key value) →
  key ∈ PyDict.keys (_values (step op s)) →
  PyDict.getitem key (_values (step op s)) = PyDict.getitem key (_values s).
Proof.
  intros Hwf Hop Hin. revert Hin.
  destruct op as [k|k v|k]; unfold step.
  - destruct (step_get_cases k s Hwf) as [[_ ->]|(v & f & _ & _ & ->)]; done.
  - assert (key ≠ k) as Hne by (intros ->; by apply (Hop v)).
    destruct (step_set_cases k v s Hwf)
      as [[_ ->]|[(_ & f & _ & ->)|[(_ & _ & ->)
          |(_ & _ & _ & e & f & b & rest & _ & _ & _ & ->)]]];
      simpl; [done|..].
    + intros _. by apply getitem_setitem_ne.
    + intros _. by apply getitem_snoc_ne.
    + unfold PyDict.keys. rewrite fmap_app.
      intros [Hin|Hin]%elem_of_app.
      * apply elem_of_keys_remove in Hin as [Hke _].
        rewrite getitem_snoc_ne by done. by apply getitem_remove_ne.
      * simpl in Hin. apply list_elem_of_singleton in Hin. done.
  - destruct (step_del_cases k s Hwf) as [[_ ->]|(f & _ & ->)]; simpl; [done|].
    intros [Hne _]%elem_of_keys_remove. by apply getitem_remove_ne.
Qed.

Lemma count_step s op key f f' :
  wf s →
  _freq s !! key = Some f →
  _freq (step op s) !! key = Some f' →
  f' = if names key op then f + 1 else f.
Proof.
  intros Hwf Hf.
  pose proof (wf_in_values _ _ _ Hwf Hf) as Hin.
  destruct op as [k|k v|k]; unfold step, names.
  - destruct (step_get_cases k s Hwf) as [[Hk ->]|(v & f0 & _ & Hf0 & ->)];
      simpl.
    + rewrite bool_decide_eq_false_2 by (intros ->; done). congruence.
    + destruct (decide (k = key)) as [->|Hne].
      * rewrite bool_decide_eq_true_2 by done. rewrite lookup_insert_eq.
        congruence.
      * rewrite bool_decide_eq_false_2 by done.
        rewrite lookup_insert_ne by done. congruence.
  - destruct (step_set_cases k v s Hwf)
      as [[Hz ->]|[(_ & f0 & Hf0 & ->)|[(Hk & _ & ->)
          |(Hk & _ & _ & e & f0 & b & rest & _ & _ & _ & ->)]]]; simpl.
    + exfalso. pose proof (wf_len s Hwf) as Hlen. rewrite Hz in Hlen.
      destruct (_values s); [by apply elem_of_nil in Hin|].
      unfold PyDict.len in Hlen. simpl in Hlen. lia.
    + destruct (decide (k = key)) as [->|Hne].
      * rewrite bool_decide_eq_true_2 by done. rewrite lookup_insert_eq.
        congruence.
      * rewrite bool_decide_eq_false_2 by done.
        rewrite lookup_insert_ne by done. congruence.
    + rewrite bool_decide_eq_false_2 by (intros ->; done).
      rewrite lookup_insert_ne by (intros ->; done). congruence.
    + rewrite bool_decide_eq_false_2 by (intros ->; done).
      rewrite lookup_insert_ne by (intros ->; done).
      intros [_ ?]%lookup_delete_Some. congruence.
  - destruct (step_del_cases k s Hwf) as [[_ ->]|(f0 & _ & ->)]; simpl.
    + congruence.
    + intros [_ ?]%lookup_delete_Some. congruence.
Qed.

(** X10: a successful [delete] removes its key and nothing else: the cache
    is one shorter, every other key keeps its value and its count, and a
    second [delete] or a [get] of the key raises [KeyError]. *)
Theorem delete_removes_one_key (size : Z) s key :
  reachable size s →
  key ∈ PyDict.keys (_values s) →
  res (LfuDictCache.__delitem__ key s) = inr tt ∧
  LfuDictCache.__len__ (st (LfuDictCache.__delitem__ key s))
    = LfuDictCache.__len__ s - 1 ∧
  (key ∉ PyDict.keys (_values (st (LfuDictCache.__delitem__ key s)))) ∧
  (∀ k, k ≠ key →
     PyDict.getitem k (_values (st (LfuDictCache.__delitem__ key s)))
       = PyDict.getitem k (_values s) ∧
     _freq (st (LfuDictCache.__delitem__ key s)) !! k = _freq s !! k) ∧
  LfuDictCache.__delitem__ key (st (LfuDictCache.__delitem__ key s))
    = MkOut (inl KeyError) (st (LfuDictCache.__delitem__ key s)) [] ∧
  LfuDictCache.__getitem__ key (st (LfuDictCache.__delitem__ key s))
    = MkOut (inl KeyError) (st (LfuDictCache.__delitem__ key s)) [].
Proof.
  intros [Hwf _]%reachable_wf Hin.
  destruct (proj1 (wf_freq s Hwf key) Hin) as [f Hf].
  pose proof (wf_removed _ _ _ Hwf Hf) as Hwf'.
  rewrite (delitem_eq key f s Hwf Hf). cbn [res st].
  assert (key ∉ PyDict.keys (_values (removed key f s))) as Hgone.
  { simpl. rewrite elem_of_keys_remove. tauto. }
  split_and!; try done.
  - unfold LfuDictCache.__len__, PyDict.len. simpl.
    pose proof (length_remove key _ (wf_values s Hwf) Hin). lia.
  - intros k Hne. split.
    + simpl. by apply getitem_remove_ne.
    + simpl. by apply lookup_delete_ne.
  - by apply delitem_raises.
  - by apply getitem_raises.
Qed.

(** X11: a [delete] makes room: the next [set] of a new key evicts nothing
    and appends the key to what the [delete] left. *)
Theorem delete_makes_room (size : Z) s key key' (value : V) :
  reachable size s →
  key ∈ PyDict.keys (_values s) →
  key' ∉ PyDict.keys (_values s) →
  _values (st (LfuDictCache.__setitem__ key' value
                 (st (LfuDictCache.__delitem__ key s))))
  = PyDict.remove key (_values s) ++ [(key', value)].
Proof.
  intros [Hwf _]%reachable_wf Hin Hnew.
  destruct (proj1 (wf_freq s Hwf key) Hin) as [f Hf].
  rewrite (delitem_eq key f s Hwf Hf). cbn [st].
  rewrite setitem_new_room; [done|by apply wf_removed| |].
  - simpl. rewrite elem_of_keys_remove. tauto.
  - simpl. pose proof (length_remove key _ (wf_values s Hwf) Hin).
    pose proof (wf_len s Hwf). unfold PyDict.len in *. lia.
Qed.

(** X12: frequency decides before recency: when a new key is set, on a
    full cache or not, a stored key whose count is larger than that of some
    other stored key is not evicted; it keeps its count and its value. *)
Theorem more_used_key_is_not_evicted
    (size : Z) s key (value : V) k k' f f' :
  reachable size s →
  key ∉ PyDict.keys (_values s) →
  _freq s !! k = Some f →
  _freq s !! k' = Some f' →
  f' < f →
  _freq (st (LfuDictCache.__setitem__ key value s)) !! k = Some f ∧
  PyDict.getitem k (_values (st (LfuDictCache.__setitem__ key value s)))
    = PyDict.getitem k (_values s).
Proof.
  intros [Hwf _]%reachable_wf Hnew Hf Hf' Hlt.
  pose proof (wf_in_values _ _ _ Hwf Hf) as Hin.
  assert (k ≠ key) as Hne by (intros ->; done).
  destruct (step_set_cases key value s Hwf)
    as [[Hz _]|[(_ & f0 & Hf0 & _)|[(_ & _ & ->)
        |(_ & _ & _ & e & fe & b & rest & Hpeek & _ & Hfe & ->)]]]; simpl.
  - exfalso. pose proof (wf_len s Hwf) as Hlen. rewrite Hz in Hlen.
    destruct (_values s); [by apply elem_of_nil in Hin|].
    unfold PyDict.len in Hlen. simpl in Hlen. lia.
  - exfalso. apply Hnew. by eapply wf_in_values.
  - split; [by rewrite lookup_insert_ne|by apply getitem_snoc_ne].
  - destruct (peekitem0_min _ _ _ Hpeek) as [_ Hmin].
    assert (fe ≤ f') as Hle.
    { apply Hmin. destruct (proj1 (wf_index s Hwf k' f') Hf') as (b' & Hb' & _).
      eauto. }
    assert (k ≠ e) as Hke by (intros ->; rewrite Hf in Hfe; simplify_eq; lia).
    split.
    + rewrite lookup_insert_ne by done. by rewrite lookup_delete_ne.
    + rewrite getitem_snoc_ne by done. by apply getitem_remove_ne.
Qed.

End cache_more.

Section cache_order.
Context {K : Type} `{!EqDecision K, !Countable K} {V : Type}.
Implicit Types (s : LfuDictCache.t K V) (k key : K) (f freq : Z)
  (op : Op K V) (ops : list (Op K V)).

Lemma step_keys_sub op s k :
  wf s → k ∈ PyDict.keys (_values (step op s)) →
  k ∈ PyDict.keys (_values s) ∨ names k op = true.
Proof.
  intros Hwf. destruct op as [k0|k0 v0|k0]; unfold step, names.
  - destruct (step_get_cases k0 s Hwf) as [[_ ->]|(v & f & _ & _ & ->)]; auto.
  - destruct (step_set_cases k0 v0 s Hwf)
      as [[_ ->]|[(_ & f & Hf & ->)|[(_ & _ & ->)
          |(_ & _ & _ & e & f & b & rest & _ & _ & _ & ->)]]]; simpl; auto.
    + rewrite keys_setitem_elem by (by eapply wf_in_values). auto.
    + unfold PyDict.keys. rewrite fmap_app.
      intros [?|Hin]%elem_of_app; [by left|right].
      simpl in Hin. apply list_elem_of_singleton in Hin.
      by apply bool_decide_eq_true_2.
    + unfold PyDict.keys. rewrite fmap_app.
      intros [Hin|Hin]%elem_of_app.
      * left. by apply elem_of_keys_remove in Hin as [_ ?].
      * right. simpl in Hin. apply list_elem_of_singleton in Hin.
        by apply bool_decide_eq_true_2.
  - destruct (step_del_cases k0 s Hwf) as [[_ ->]|(f & _ & ->)]; simpl; auto.
    intros [_ ?]%elem_of_keys_remove. auto.
Qed.

Lemma stored_key_was_touched (size : Z) s0 ops k :
  LfuDictCache.__init__ size = inr s0 →
  k ∈ PyDict.keys (_values (run ops s0)) →
  (1 ≤ last_touch ops k)%nat.
Proof.
  intros Hinit. destruct (wf_init _ _ Hinit) as (_ & Hwf0 & Hs0).
  induction ops as [|op ops IH] using rev_ind.
  - simpl. rewrite Hs0. simpl. by intros ?%elem_of_nil.
  - rewrite run_app. simpl. intros Hin.
    rewrite last_touch_snoc.
    destruct (step_keys_sub op (run ops s0) k) as [Hin'|Hn];
      [by apply run_wf|done| |by rewrite Hn; lia].
    destruct (names k op); [lia|auto].
Qed.

(** X13: every bucket keeps its keys in the order of their last touch: of
    two keys of one bucket, the one listed first was last read or written
    earlier, and every listed key has been read or written at least once. *)
Theorem bucket_order_is_touch_order
    (size : Z) s0 ops f b (l1 l2 l3 : list K) k1 k2 :
  LfuDictCache.__init__ size = inr s0 →
  _freq_to_lru (run ops s0) !! f = Some b →
  PyDict.keys (DictCache.od b) = l1 ++ k1 :: l2 ++ k2 :: l3 →
  (1 ≤ last_touch ops k1 < last_touch ops k2)%nat ∧
  (last_touch ops k2 ≤ length ops)%nat.
Proof.
  intros Hinit Hb Hkeys.
  pose proof (recency_run ops s0 size Hinit f b Hb) as Hs.
  destruct (wf_init _ _ Hinit) as (_ & Hwf0 & _).
  destruct (run_wf ops s0 Hwf0) as (Hwf & _ & _).
  rewrite Hkeys in Hs.
  apply StronglySorted_app_1_r in Hs.
  apply StronglySorted_cons in Hs as [Hall _].
  assert (k2 ∈ l2 ++ k2 :: l3) as Hk2.
  { apply elem_of_app. right. left. }
  pose proof (proj1 (Forall_forall _ _) Hall k2 Hk2) as Hlt.
  split; [split; [|done]|apply last_touch_le].
  apply (stored_key_was_touched size s0); [done|].
  apply (in_bucket_in_values _ k1 f Hwf). exists b. split; [done|].
  rewrite Hkeys. apply elem_of_app. right. left.
Qed.

(** X14: a new key set on a cache of capacity at least 1 starts at count 1,
    at the most recent end of the count-1 bucket and at the end of the value
    store. *)
Theorem new_key_starts_at_count_one (size : Z) s key (value : V) :
  1 ≤ size → reachable size s →
  key ∉ PyDict.keys (_values s) →
  _freq (st (LfuDictCache.__setitem__ key value s)) !! key = Some 1 ∧
  (∃ b older,
     _freq_to_lru (st (LfuDictCache.__setitem__ key value s)) !! 1 = Some b ∧
     DictCache.od b = older ++ [(key, tt)]) ∧
  (∃ older,
     _values (st (LfuDictCache.__setitem__ key value s))
     = older ++ [(key, value)]).
Proof.
  intros Hsize Hreach Hnew. destruct (reachable_wf _ _ Hreach) as [Hwf Hsz].
  destruct (step_set_cases key value s Hwf)
    as [[Hz _]|[(_ & f & Hf & _)|[(_ & _ & ->)
        |(_ & _ & _ & e & f & b & rest & _ & _ & _ & ->)]]]; simpl.
  - lia.
  - exfalso. apply Hnew. by eapply wf_in_values.
  - split_and!; [apply lookup_insert_eq| |eauto].
    unfold bucket_with. rewrite lookup_insert_eq. eauto.
  - split_and!; [apply lookup_insert_eq| |eauto].
    unfold bucket_with. rewrite lookup_insert_eq. eauto.
Qed.

(** The cache after distinct keys have been set on an empty cache that has
    room for them all. *)
Lemma filled_cache (size : Z) s0 (kvs : list (K * V)) :
  LfuDictCache.__init__ size = inr s0 →
  NoDup (PyDict.keys kvs) →
  PyDict.len kvs ≤ size →
  _values (run (set_each kvs) s0) = kvs ∧
  (∀ k, k ∈ PyDict.keys kvs → _freq (run (set_each kvs) s0) !! k = Some 1) ∧
  (kvs ≠ [] →
   ∃ b, _freq_to_lru (run (set_each kvs) s0) !! 1 = Some b ∧
        PyDict.keys (DictCache.od b) = PyDict.keys kvs) ∧
  (kvs = [] → _freq_to_lru (run (set_each kvs) s0) = ∅).
Proof.
  intros Hinit. destruct (wf_init _ _ Hinit) as (_ & Hwf0 & Hs0).
  induction kvs as [|[k v] kvs IH] using rev_ind; intros Hnd Hlen.
  - simpl. rewrite Hs0. simpl. split_and!; try done.
    by intros k ?%elem_of_nil.
  - unfold PyDict.keys in Hnd. rewrite fmap_app in Hnd.
    apply NoDup_app in Hnd as (Hnd & Hdisj & _).
    assert (k ∉ PyDict.keys kvs) as Hk.
    { intros Hin. apply (Hdisj k Hin). simpl. left. }
    unfold PyDict.len in Hlen. rewrite length_app in Hlen. simpl in Hlen.
    destruct IH as (Hvals & Hfreq & Hidx & Hempty); [done|unfold PyDict.len; lia|].
    unfold set_each in *. rewrite map_app. cbn [map fst snd].
    rewrite run_app. cbn [run step].
    set (s := run (map (λ kv : K * V, Set_ kv.1 kv.2) kvs) s0) in *.
    destruct (run_wf (map (λ kv : K * V, Set_ kv.1 kv.2) kvs) s0 Hwf0)
      as (Hwf & _ & Hsz). fold s in Hwf, Hsz.
    rewrite setitem_new_room; [|done|by rewrite Hvals|].
    2: { rewrite Hvals, Hsz, Hs0. simpl. unfold PyDict.len. lia. }
    simpl. split_and!.
    + by rewrite Hvals.
    + intros k'. unfold PyDict.keys. rewrite fmap_app.
      intros [Hin|Hin]%elem_of_app.
      * rewrite lookup_insert_ne by (intros ->; done). by apply Hfreq.
      * simpl in Hin. apply list_elem_of_singleton in Hin as ->.
        apply lookup_insert_eq.
    + intros _. unfold bucket_with. rewrite lookup_insert_eq.
      eexists; split; [done|]. simpl.
      unfold PyDict.keys. rewrite !fmap_app. simpl. f_equal.
      destruct kvs as [|kv kvs'] eqn:Ekvs.
      * rewrite Hempty by done. rewrite lookup_empty. done.
      * destruct Hidx as (b & Hb & Hkeys); [done|].
        rewrite Hb. simpl.
        fold (PyDict.keys (PyDict.remove k (DictCache.od b))).
        rewrite remove_not_elem; [done|]. by rewrite Hkeys.
    + intros Hnil. by destruct kvs.
Qed.

(** X15: ties are broken by age: when as many distinct keys as the capacity
    have been set on a new cache and one more new key is set, the key set
    first is the one evicted. *)
Theorem first_set_is_first_evicted
    (size : Z) s0 (kvs : list (K * V)) key (value : V) :
  1 ≤ size →
  LfuDictCache.__init__ size = inr s0 →
  NoDup (PyDict.keys kvs) →
  PyDict.len kvs = size →
  key ∉ PyDict.keys kvs →
  _values (run (set_each kvs ++ [Set_ key value]) s0)
  = tail kvs ++ [(key, value)].
Proof.
  intros Hsize Hinit Hnd Hlen Hnew.
  destruct (wf_init _ _ Hinit) as (_ & Hwf0 & Hs0).
  destruct (filled_cache size s0 kvs Hinit Hnd) as (Hvals & Hfreq & Hidx & _);
    [lia|].
  rewrite run_app. cbn [run step].
  set (s := run (set_each kvs) s0) in *.
  destruct (run_wf (set_each kvs) s0 Hwf0) as (Hwf & _ & Hsz). fold s in Hwf, Hsz.
  assert (_max_size s = size) as Hmax by (rewrite Hsz, Hs0; done).
  destruct (setitem_new_full key value s Hwf)
    as (e & f & b & rest & Hpeek & Hod & Hfe & ->).
  { by rewrite Hvals. }
  { lia. }
  { rewrite Hvals. lia. }
  simpl. rewrite Hvals. f_equal.
  destruct (peekitem0_min _ _ _ Hpeek) as [Hb _].
  pose proof (wf_in_values _ _ _ Hwf Hfe) as Hein. rewrite Hvals in Hein.
  rewrite (Hfreq e Hein) in Hfe. injection Hfe as <-.
  destruct kvs as [|[k0 v0] kvs']; [by apply elem_of_nil in Hein|].
  destruct Hidx as (b1 & Hb1 & Hkeys); [done|].
  rewrite Hb in Hb1. injection Hb1 as <-.
  rewrite Hod in Hkeys. unfold PyDict.keys in Hkeys.
  rewrite !fmap_cons in Hkeys. simpl in Hkeys. injection Hkeys as -> _.
  rewrite remove_cons_eq. simpl.
  apply remove_not_elem.
  unfold PyDict.keys in Hnd. rewrite fmap_cons in Hnd.
  by apply NoDup_cons in Hnd as [? _].
Qed.

(** X16: new keys evict each other: when every stored key of a full cache
    has been touched since it was set, a key newly set and not touched is the
    one evicted by the next new key. *)
Theorem untouched_new_key_is_next_victim
    (size : Z) s key1 key2 (value1 value2 : V) :
  1 ≤ size → reachable size s →
  LfuDictCache.__len__ s = size →
  (∀ k f, _freq s !! k = Some f → 2 ≤ f) →
  key1 ∉ PyDict.keys (_values s) →
  key2 ∉ PyDict.keys (_values s) →
  key1 ≠ key2 →
  _values (run [Set_ key1 value1; Set_ key2 value2] s)
  = PyDict.remove key1 (_values (run [Set_ key1 value1] s))
    ++ [(key2, value2)].
Proof.
  intros Hsize Hreach Hfull Hcounts Hk1 Hk2 Hne.
  destruct (reachable_wf _ _ Hreach) as [Hwf Hsz].
  cbn [run step].
  destruct (setitem_new_full key1 value1 s Hwf Hk1)
    as (e & f & b & rest & _ & _ & Hfe & Hset1).
  { lia. }
  { unfold LfuDictCache.__len__ in Hfull. lia. }
  pose proof (wf_in_values _ _ _ Hwf Hfe) as Hein.
  assert (wf (inserted key1 value1 (removed e f s))) as Hwf1.
  { pose proof (step_wf (Set_ key1 value1) s Hwf) as (H1 & _).
    unfold step in H1. by rewrite Hset1 in H1. }
  rewrite Hset1. cbn [st].
  set (s1 := inserted key1 value1 (removed e f s)) in *.
  assert (key2 ∉ PyDict.keys (_values s1)) as Hk2'.
  { subst s1. simpl. unfold PyDict.keys. rewrite fmap_app.
    intros [Hin|Hin]%elem_of_app.
    - by apply elem_of_keys_remove in Hin as [_ ?].
    - simpl in Hin. apply list_elem_of_singleton in Hin. done. }
  destruct (setitem_new_full key2 value2 s1 Hwf1 Hk2')
    as (e2 & f2 & b2 & rest2 & Hpeek2 & _ & Hfe2 & ->).
  { subst s1. simpl. lia. }
  { subst s1. simpl. unfold LfuDictCache.__len__, PyDict.len in *.
    rewrite length_app. simpl.
    pose proof (length_remove e _ (wf_values s Hwf) Hein). lia. }
  cbn [st inserted _values]. f_equal.
  destruct (peekitem0_min _ _ _ Hpeek2) as [_ Hmin].
  assert (_freq s1 !! key1 = Some 1) as Hf1.
  { subst s1. simpl. apply lookup_insert_eq. }
  assert (f2 ≤ 1) as Hle.
  { apply Hmin. destruct (proj1 (wf_index s1 Hwf1 key1 1) Hf1) as (b1 & Hb1 & _).
    eauto. }
  destruct (decide (e2 = key1)) as [->|Hne2]; [done|].
  exfalso. subst s1. simpl in Hfe2.
  rewrite lookup_insert_ne in Hfe2 by done.
  apply lookup_delete_Some in Hfe2 as [_ Hfe2].
  specialize (Hcounts _ _ Hfe2). lia.
Qed.

End cache_order.

Section cache_history.
Context {K : Type} `{!EqDecision K, !Countable K} {V : Type}.
Implicit Types (s : LfuDictCache.t K V) (k key : K) (f freq : Z)
  (op : Op K V) (ops : list (Op K V)).

Lemma stored_before s op key :
  wf s →
  (∀ value, op ≠ Set_ key value) →
  key ∈ PyDict.keys (_values (step op s)) →
  key ∈ PyDict.keys (_values s).
Proof.
  intros Hwf Hop Hin.
  destruct (step_keys_sub op s key Hwf Hin) as [?|Hn]; [done|].
  destruct op as [k|k v|k]; simpl in Hn.
  - apply bool_decide_eq_true in Hn as ->. revert Hin. unfold step.
    destruct (step_get_cases key s Hwf) as [[_ ->]|(v & f & _ & Hf & _)];
      [done|]. intros _. by eapply wf_in_values.
  - apply bool_decide_eq_true in Hn as ->. by destruct (Hop v).
  - done.
Qed.

(** X8: a stored value is changed by a [set] of its own key only: through
    any operations that do not set the key, a key that is still stored at the
    end has the value it had at the start. *)
Theorem value_stays_until_set_again (size : Z) s ops key :
  reachable size s →
  Forall (λ op, ∀ value, op ≠ Set_ key value) ops →
  key ∈ PyDict.keys (_values (run ops s)) →
  PyDict.getitem key (_values (run ops s)) = PyDict.getitem key (_values s).
Proof.
  intros [Hwf _]%reachable_wf.
  induction ops as [|op ops IH] using rev_ind; [intros; reflexivity|].
  intros [Hall Hop]%Forall_app. apply Forall_inv in Hop.
  rewrite run_app. cbn [run]. intros Hin.
  destruct (run_wf ops s Hwf) as (Hwf' & _ & _).
  cbv beta in Hop.
  rewrite (value_step _ op key Hwf' Hop Hin). apply IH; [done|].
  by apply (stored_before _ op).
Qed.

(** X9: a key's count changes by touches of that key only, and by exactly 1
    each: for a key stored before and after an operation, the count is one
    more when the operation is a [get] or [set] of that key and the same
    otherwise. *)
Theorem count_changes_by_own_touch_only (size : Z) s op key f f' :
  reachable size s →
  _freq s !! key = Some f →
  _freq (step op s) !! key = Some f' →
  f' = if names key op then f + 1 else f.
Proof. intros [Hwf _]%reachable_wf. by apply count_step. Qed.

(** X17: counts are exact: while a key stays stored, its count grows by the
    number of [get]s and [set]s of that key. *)
Theorem count_grows_by_number_of_touches (size : Z) s ops key f :
  reachable size s →
  _freq s !! key = Some f →
  (∀ n, key ∈ PyDict.keys (_values (run (take n ops) s))) →
  _freq (run ops s) !! key
  = Some (f + Z.of_nat (length (touches_of key ops))).
Proof.
  intros [Hwf _]%reachable_wf. revert s f Hwf.
  induction ops as [|op ops IH]; intros s f Hwf Hf Hstay.
  - simpl. rewrite Hf. f_equal. lia.
  - cbn [run].
    destruct (step_wf op s Hwf) as (Hwf' & _ & _).
    pose proof (Hstay 1%nat) as H1. cbn [take run] in H1.
    destruct (proj1 (wf_freq _ Hwf' key) H1) as [f' Hf'].
    pose proof (count_step s op key f f' Hwf Hf Hf') as Hstep.
    rewrite (IH _ f' Hwf' Hf').
    + f_equal. unfold touches_of. rewrite filter_cons.
      destruct (names key op) eqn:En.
      * rewrite decide_True by done. simpl. lia.
      * rewrite decide_False by done. lia.
    + intros n. apply (Hstay (Datatypes.S n)).
Qed.

Lemma bucket_total_length (l : list (Z * DictCache.t K unit)) :
  foldr (λ fb n, (length (DictCache.od fb.2) + n)%nat) 0%nat l
  = length (foldr (λ fb acc, PyDict.keys (DictCache.od fb.2) ++ acc) [] l).
Proof.
  induction l as [|fb l IH]; simpl; [done|].
  rewrite length_app, keys_length. by rewrite IH.
Qed.

Lemma elem_of_bucket_keys_list (l : list (Z * DictCache.t K unit)) k :
  k ∈ foldr (λ fb acc, PyDict.keys (DictCache.od fb.2) ++ acc) [] l ↔
  ∃ fb, fb ∈ l ∧ k ∈ PyDict.keys (DictCache.od fb.2).
Proof.
  induction l as [|fb l IH]; simpl.
  - split; [by intros ?%elem_of_nil|]. by intros (? & ?%elem_of_nil & _).
  - rewrite elem_of_app, IH. split.
    + intros [?|(fb' & ? & ?)]; [exists fb; split; [left|done]|].
      exists fb'. split; [by right|done].
    + intros (fb' & [->|?]%elem_of_cons & ?); [by left|]. right. eauto.
Qed.

Lemma NoDup_bucket_keys_list (fr : gmap K Z) (l : list (Z * DictCache.t K unit)) :
  NoDup l.*1 →
  (∀ fb, fb ∈ l →
     NoDup (PyDict.keys (DictCache.od fb.2)) ∧
     ∀ k, k ∈ PyDict.keys (DictCache.od fb.2) → fr !! k = Some fb.1) →
  NoDup (foldr (λ fb acc, PyDict.keys (DictCache.od fb.2) ++ acc) [] l).
Proof.
  induction l as [|fb l IH]; simpl; [constructor|].
  intros [Hnotin Hnd]%NoDup_cons Hall.
  apply NoDup_app. split_and!.
  - apply (Hall fb). left.
  - intros k Hk (fb' & Hfb' & Hk')%elem_of_bucket_keys_list.
    apply Hnotin.
    destruct (Hall fb) as [_ Hf]; [left|].
    destruct (Hall fb') as [_ Hf']; [by right|].
    specialize (Hf k Hk). specialize (Hf' k Hk').
    assert (fb.1 = fb'.1) as -> by congruence.
    apply list_elem_of_fmap. by exists fb'.
  - apply IH; [done|]. intros fb' Hfb'. apply Hall. by right.
Qed.

(** X18: the three maps agree on how many keys there are: [len()] is the
    number of keys of the count map and the number of keys over all
    buckets, which are exactly the stored keys. *)
Theorem len_counts_every_structure (capacity : Z) s :
  reachable capacity s →
  LfuDictCache.__len__ s = Z.of_nat (size (_freq s)) ∧
  LfuDictCache.__len__ s = Z.of_nat (bucket_total (_freq_to_lru s)) ∧
  bucket_keys (_freq_to_lru s) ≡ₚ PyDict.keys (_values s).
Proof.
  intros [Hwf _]%reachable_wf.
  assert (bucket_keys (_freq_to_lru s) ≡ₚ PyDict.keys (_values s)) as Hperm.
  { apply NoDup_Permutation.
    - apply (NoDup_bucket_keys_list (_freq s)).
      + apply NoDup_fst_map_to_list.
      + intros [f b] Hfb%elem_of_map_to_list. simpl.
        destruct (wf_bucket s Hwf f b Hfb) as (_ & Hnd & _). split; [done|].
        intros k Hk. apply (wf_index s Hwf). by exists b.
    - apply (wf_values s Hwf).
    - intros k. unfold bucket_keys. rewrite elem_of_bucket_keys_list. split.
      + intros ([f b] & Hfb%elem_of_map_to_list & Hk). simpl in Hk.
        apply (in_bucket_in_values s k f Hwf). by exists b.
      + intros [f Hf]%(wf_freq s Hwf).
        destruct (proj1 (wf_index s Hwf k f) Hf) as (b & Hb & Hk).
        exists (f, b). split; [by apply elem_of_map_to_list|done]. }
  split_and!; [|unfold bucket_total; rewrite bucket_total_length|done].
  - unfold LfuDictCache.__len__, PyDict.len. f_equal.
    rewrite <- size_dom.
    assert (dom (_freq s) = list_to_set (PyDict.keys (_values s))) as ->.
    { apply set_eq. intros k. rewrite elem_of_dom, elem_of_list_to_set.
      symmetry. apply (wf_freq s Hwf). }
    rewrite size_list_to_set by apply (wf_values s Hwf).
    by rewrite keys_length.
  - fold (bucket_keys (_freq_to_lru s)). rewrite Hperm.
    unfold LfuDictCache.__len__, PyDict.len. by rewrite keys_length.
Qed.


End cache_history.

(** * The further properties on the caches of the test suite *)

Lemma DictCache_get_touches_or_raises_witness :
  NoDup (PyDict.keys (DictCache.od lru3)) ∧
  ("x"%string ∉ PyDict.keys (DictCache.od lru3)) ∧
   DictCache.__getitem__ "x"%string lru3 = MkOut (inl KeyError) lru3 [] ∧
  "a"%string ∈ PyDict.keys (DictCache.od lru3) ∧
   ∃ v l r,
     DictCache.od lru3 = l ++ ("a"%string, v) :: r ∧
     DictCache.__getitem__ "a"%string lru3 =
       MkOut (inr v) (DictCache.Mk (DictCache.maxsize lru3) (l ++ r ++ [("a"%string, v)])) [].
Proof.
  assert (NoDup (PyDict.keys (DictCache.od lru3))) as H1.
  { refine (bool_decide_unpack _ _); vm_compute; exact I. }
  assert ("x"%string ∉ PyDict.keys (DictCache.od lru3)) as H2.
  { refine (bool_decide_unpack _ _); vm_compute; exact I. }
  assert ("a"%string ∈ PyDict.keys (DictCache.od lru3)) as H3.
  { refine (bool_decide_unpack _ _); vm_compute; exact I. }
  split; [exact H1|]. split; [exact H2|].
  split; [exact (proj1 (DictCache_get_touches_or_raises "x"%string lru3 H1) H2)|].
  split; [exact H3|].
  exact (proj2 (DictCache_get_touches_or_raises "a"%string lru3 H1) H3).
Defined.

Lemma DictCache_set_drops_only_the_oldest_witness :
  (NoDup (PyDict.keys (DictCache.od lru3))) ∧
  (PyDict.len (DictCache.od lru3) ≤ DictCache.maxsize lru3) ∧
  ("d"%string ∉ PyDict.keys (DictCache.od lru3)) ∧
  (PyDict.len (DictCache.od lru3) = DictCache.maxsize lru3) ∧
  (1 ≤ DictCache.maxsize lru3) ∧
   ∃ oldest rest,
     DictCache.od lru3 = oldest :: rest ∧
     DictCache.__setitem__ "d"%string 4 lru3 =
       MkOut (inr tt)
         (DictCache.Mk (DictCache.maxsize lru3) (rest ++ [("d"%string, 4)]))
         [PopOldest].
Proof.
  assert (NoDup (PyDict.keys (DictCache.od lru3))) as H1.
  { refine (bool_decide_unpack _ _); vm_compute; exact I. }
  assert (PyDict.len (DictCache.od lru3) ≤ DictCache.maxsize lru3) as H2.
  { refine (bool_decide_unpack _ _); vm_compute; exact I. }
  assert ("d"%string ∉ PyDict.keys (DictCache.od lru3)) as H3.
  { refine (bool_decide_unpack _ _); vm_compute; exact I. }
  assert (PyDict.len (DictCache.od lru3) = DictCache.maxsize lru3) as H4.
  { reflexivity. }
  assert (1 ≤ DictCache.maxsize lru3) as H5.
  { refine (bool_decide_unpack _ _); vm_compute; exact I. }
  split; [exact H1|].
  split; [exact H2|].
  split; [exact H3|].
  split; [exact H4|].
  split; [exact H5|].
  exact (proj2 (proj2 (DictCache_set_drops_only_the_oldest "d"%string 4 lru3 H1 H2)) H3 H4 H5).
Defined.

Lemma DictCache_set_then_get_witness :
  (1 ≤ DictCache.maxsize lru3) ∧
  res (DictCache.__getitem__ "d"%string (st (DictCache.__setitem__ "d"%string 4 lru3)))
  = inr 4.
Proof.
  assert (1 ≤ DictCache.maxsize lru3) as H1.
  { refine (bool_decide_unpack _ _); vm_compute; exact I. }
  split; [exact H1|].
  exact (DictCache_set_then_get "d"%string 4 lru3 H1).
Defined.

Lemma DictCache_recent_key_survives_witness :
  (Forall (λ kv : string * Z, kv.1 ≠ "d"%string) [("e"%string, 5); ("a"%string, 6)]) ∧
  (Z.of_nat (length [("e"%string, 5); ("a"%string, 6)]) < DictCache.maxsize lru3) ∧
  res (DictCache.__getitem__ "d"%string
         (DictCacheUse.run (map (λ kv, DictCacheUse.Set_ kv.1 kv.2) [("e"%string, 5); ("a"%string, 6)])
            (st (DictCache.__setitem__ "d"%string 4 lru3))))
  = inr 4.
Proof.
  assert (Forall (λ kv : string * Z, kv.1 ≠ "d"%string) [("e"%string, 5); ("a"%string, 6)]) as H1.
  { refine (bool_decide_unpack _ _); vm_compute; exact I. }
  assert (Z.of_nat (length [("e"%string, 5); ("a"%string, 6)]) < DictCache.maxsize lru3) as H2.
  { refine (bool_decide_unpack _ _); vm_compute; exact I. }
  split; [exact H1|].
  split; [exact H2|].
  exact (DictCache_recent_key_survives "d"%string 4 lru3 [("e"%string, 5); ("a"%string, 6)] H1 H2).
Defined.

Lemma only_missing_keys_raise_witness :
  (reachable 3 full3) ∧
  (∀ key value, res (LfuDictCache.__setitem__ key value full3) = inr tt) ∧
  (∀ key, key ∈ PyDict.keys (_values full3) →
     (∃ value, res (LfuDictCache.__getitem__ key full3) = inr value) ∧
     res (LfuDictCache.__delitem__ key full3) = inr tt) ∧
  (∀ key, key ∉ PyDict.keys (_values full3) →
     res (LfuDictCache.__getitem__ key full3) = inl KeyError ∧
     res (LfuDictCache.__delitem__ key full3) = inl KeyError).
Proof.
  assert (reachable 3 full3) as H1.
  { exists cache3, prepare; split; reflexivity. }
  split; [exact H1|].
  exact (only_missing_keys_raise 3 full3 H1).
Defined.

Lemma set_then_get_witness :
  (1 ≤ 3) ∧
  (reachable 3 full3) ∧
  res (LfuDictCache.__getitem__ "d"%string
         (st (LfuDictCache.__setitem__ "d"%string 4 full3))) = inr 4.
Proof.
  assert (1 ≤ 3) as H1.
  { lia. }
  assert (reachable 3 full3) as H2.
  { exists cache3, prepare; split; reflexivity. }
  split; [exact H1|].
  split; [exact H2|].
  exact (set_then_get 3 full3 "d"%string 4 H1 H2).
Defined.

Lemma delete_removes_one_key_witness :
  (reachable 3 full3) ∧
  ("b"%string ∈ PyDict.keys (_values full3)) ∧
  res (LfuDictCache.__delitem__ "b"%string full3) = inr tt ∧
  LfuDictCache.__len__ (st (LfuDictCache.__delitem__ "b"%string full3))
    = LfuDictCache.__len__ full3 - 1 ∧
  ("b"%string ∉ PyDict.keys (_values (st (LfuDictCache.__delitem__ "b"%string full3)))) ∧
  (∀ k, k ≠ "b"%string →
     PyDict.getitem k (_values (st (LfuDictCache.__delitem__ "b"%string full3)))
       = PyDict.getitem k (_values full3) ∧
     _freq (st (LfuDictCache.__delitem__ "b"%string full3)) !! k = _freq full3 !! k) ∧
  LfuDictCache.__delitem__ "b"%string (st (LfuDictCache.__delitem__ "b"%string full3))
    = MkOut (inl KeyError) (st (LfuDictCache.__delitem__ "b"%string full3)) [] ∧
  LfuDictCache.__getitem__ "b"%string (st (LfuDictCache.__delitem__ "b"%string full3))
    = MkOut (inl KeyError) (st (LfuDictCache.__delitem__ "b"%string full3)) [].
Proof.
  assert (reachable 3 full3) as H1.
  { exists cache3, prepare; split; reflexivity. }
  assert ("b"%string ∈ PyDict.keys (_values full3)) as H2.
  { refine (bool_decide_unpack _ _); vm_compute; exact I. }
  split; [exact H1|].
  split; [exact H2|].
  exact (delete_removes_one_key 3 full3 "b"%string H1 H2).
Defined.

Lemma delete_makes_room_witness :
  (reachable 3 full3) ∧
  ("b"%string ∈ PyDict.keys (_values full3)) ∧
  ("d"%string ∉ PyDict.keys (_values full3)) ∧
  _values (st (LfuDictCache.__setitem__ "d"%string 4
                 (st (LfuDictCache.__delitem__ "b"%string full3))))
  = PyDict.remove "b"%string (_values full3) ++ [("d"%string, 4)].
Proof.
  assert (reachable 3 full3) as H1.
  { exists cache3, prepare; split; reflexivity. }
  assert ("b"%string ∈ PyDict.keys (_values full3)) as H2.
  { refine (bool_decide_unpack _ _); vm_compute; exact I. }
  assert ("d"%string ∉ PyDict.keys (_values full3)) as H3.
  { refine (bool_decide_unpack _ _); vm_compute; exact I. }
  split; [exact H1|].
  split; [exact H2|].
  split; [exact H3|].
  exact (delete_makes_room 3 full3 "b"%string "d"%string 4 H1 H2 H3).
Defined.

Lemma more_used_key_is_not_evicted_witness :
  (reachable 3 (run read_a cache3)) ∧
  ("d"%string ∉ PyDict.keys (_values (run read_a cache3))) ∧
  (_freq (run read_a cache3) !! "a"%string = Some 2) ∧
  (_freq (run read_a cache3) !! "b"%string = Some 1) ∧
  (1 < 2) ∧
  _freq (st (LfuDictCache.__setitem__ "d"%string 4 (run read_a cache3))) !! "a"%string = Some 2 ∧
  PyDict.getitem "a"%string (_values (st (LfuDictCache.__setitem__ "d"%string 4 (run read_a cache3))))
    = PyDict.getitem "a"%string (_values (run read_a cache3)).
Proof.
  assert (reachable 3 (run read_a cache3)) as H1.
  { exists cache3, read_a; split; reflexivity. }
  assert ("d"%string ∉ PyDict.keys (_values (run read_a cache3))) as H2.
  { refine (bool_decide_unpack _ _); vm_compute; exact I. }
  assert (_freq (run read_a cache3) !! "a"%string = Some 2) as H3.
  { vm_compute; reflexivity. }
  assert (_freq (run read_a cache3) !! "b"%string = Some 1) as H4.
  { vm_compute; reflexivity. }
  assert (1 < 2) as H5.
  { lia. }
  split; [exact H1|].
  split; [exact H2|].
  split; [exact H3|].
  split; [exact H4|].
  split; [exact H5|].
  exact (more_used_key_is_not_evicted 3 (run read_a cache3) "d"%string 4 "a"%string "b"%string 2 1 H1 H2 H3 H4 H5).
Defined.

Lemma value_stays_until_set_again_witness :
  (reachable 3 full3) ∧
  (Forall (λ op : Op string Z, ∀ value, op ≠ Set_ "a"%string value) [Get "a"%string; Set_ "b"%string 5; Del "c"%string]) ∧
  ("a"%string ∈ PyDict.keys (_values (run [Get "a"%string; Set_ "b"%string 5; Del "c"%string] full3))) ∧
  PyDict.getitem "a"%string (_values (run [Get "a"%string; Set_ "b"%string 5; Del "c"%string] full3)) = PyDict.getitem "a"%string (_values full3).
Proof.
  assert (reachable 3 full3) as H1.
  { exists cache3, prepare; split; reflexivity. }
  assert (Forall (λ op : Op string Z, ∀ value, op ≠ Set_ "a"%string value) [Get "a"%string; Set_ "b"%string 5; Del "c"%string]) as H2.
  { repeat (constructor; [intros value; discriminate|]); constructor. }
  assert ("a"%string ∈ PyDict.keys (_values (run [Get "a"%string; Set_ "b"%string 5; Del "c"%string] full3))) as H3.
  { refine (bool_decide_unpack _ _); vm_compute; exact I. }
  split; [exact H1|].
  split; [exact H2|].
  split; [exact H3|].
  exact (value_stays_until_set_again 3 full3 [Get "a"%string; Set_ "b"%string 5; Del "c"%string] "a"%string H1 H2 H3).
Defined.

Lemma count_changes_by_own_touch_only_witness :
  (reachable 3 full3) ∧
  (_freq full3 !! "a"%string = Some 1) ∧
  (_freq (step (Get "a"%string) full3) !! "a"%string = Some 2) ∧
  2 = if names "a"%string (Get "a"%string : Op string Z) then 1 + 1 else 1.
Proof.
  assert (reachable 3 full3) as H1.
  { exists cache3, prepare; split; reflexivity. }
  assert (_freq full3 !! "a"%string = Some 1) as H2.
  { vm_compute; reflexivity. }
  assert (_freq (step (Get "a"%string) full3) !! "a"%string = Some 2) as H3.
  { vm_compute; reflexivity. }
  split; [exact H1|].
  split; [exact H2|].
  split; [exact H3|].
  exact (count_changes_by_own_touch_only 3 full3 (Get "a"%string) "a"%string 1 2 H1 H2 H3).
Defined.

Lemma bucket_order_is_touch_order_witness :
  (LfuDictCache.__init__ 3 = inr cache3) ∧
  (_freq_to_lru (run prepare cache3) !! 1 = Some (DictCache.Mk 3 [("a"%string, tt); ("b"%string, tt); ("c"%string, tt)])) ∧
  (PyDict.keys (DictCache.od (DictCache.Mk 3 [("a"%string, tt); ("b"%string, tt); ("c"%string, tt)])) = [] ++ "a"%string :: ["b"%string] ++ "c"%string :: []) ∧
  (1 ≤ last_touch prepare "a"%string < last_touch prepare "c"%string)%nat ∧
  (last_touch prepare "c"%string ≤ length prepare)%nat.
Proof.
  assert (LfuDictCache.__init__ 3 = inr cache3) as H1.
  { reflexivity. }
  assert (_freq_to_lru (run prepare cache3) !! 1 = Some (DictCache.Mk 3 [("a"%string, tt); ("b"%string, tt); ("c"%string, tt)])) as H2.
  { vm_compute; reflexivity. }
  assert (PyDict.keys (DictCache.od (DictCache.Mk 3 [("a"%string, tt); ("b"%string, tt); ("c"%string, tt)])) = [] ++ "a"%string :: ["b"%string] ++ "c"%string :: []) as H3.
  { reflexivity. }
  split; [exact H1|].
  split; [exact H2|].
  split; [exact H3|].
  exact (bucket_order_is_touch_order 3 cache3 prepare 1 (DictCache.Mk 3 [("a"%string, tt); ("b"%string, tt); ("c"%string, tt)]) [] ["b"%string] [] "a"%string "c"%string H1 H2 H3).
Defined.

Lemma new_key_starts_at_count_one_witness :
  (1 ≤ 3) ∧
  (reachable 3 full3) ∧
  ("d"%string ∉ PyDict.keys (_values full3)) ∧
  _freq (st (LfuDictCache.__setitem__ "d"%string 4 full3)) !! "d"%string = Some 1 ∧
  (∃ b older,
     _freq_to_lru (st (LfuDictCache.__setitem__ "d"%string 4 full3)) !! 1 = Some b ∧
     DictCache.od b = older ++ [("d"%string, tt)]) ∧
  (∃ older,
     _values (st (LfuDictCache.__setitem__ "d"%string 4 full3))
     = older ++ [("d"%string, 4)]).
Proof.
  assert (1 ≤ 3) as H1.
  { lia. }
  assert (reachable 3 full3) as H2.
  { exists cache3, prepare; split; reflexivity. }
  assert ("d"%string ∉ PyDict.keys (_values full3)) as H3.
  { refine (bool_decide_unpack _ _); vm_compute; exact I. }
  split; [exact H1|].
  split; [exact H2|].
  split; [exact H3|].
  exact (new_key_starts_at_count_one 3 full3 "d"%string 4 H1 H2 H3).
Defined.

Lemma first_set_is_first_evicted_witness :
  (1 ≤ 3) ∧
  (LfuDictCache.__init__ 3 = inr cache3) ∧
  (NoDup (PyDict.keys [("a"%string, 1); ("b"%string, 2); ("c"%string, 3)])) ∧
  (PyDict.len [("a"%string, 1); ("b"%string, 2); ("c"%string, 3)] = 3) ∧
  ("d"%string ∉ PyDict.keys [("a"%string, 1); ("b"%string, 2); ("c"%string, 3)]) ∧
  _values (run (set_each [("a"%string, 1); ("b"%string, 2); ("c"%string, 3)] ++ [Set_ "d"%string 4]) cache3)
  = tail [("a"%string, 1); ("b"%string, 2); ("c"%string, 3)] ++ [("d"%string, 4)].
Proof.
  assert (1 ≤ 3) as H1.
  { lia. }
  assert (LfuDictCache.__init__ 3 = inr cache3) as H2.
  { reflexivity. }
  assert (NoDup (PyDict.keys [("a"%string, 1); ("b"%string, 2); ("c"%string, 3)])) as H3.
  { refine (bool_decide_unpack _ _); vm_compute; exact I. }
  assert (PyDict.len [("a"%string, 1); ("b"%string, 2); ("c"%string, 3)] = 3) as H4.
  { reflexivity. }
  assert ("d"%string ∉ PyDict.keys [("a"%string, 1); ("b"%string, 2); ("c"%string, 3)]) as H5.
  { refine (bool_decide_unpack _ _); vm_compute; exact I. }
  split; [exact H1|].
  split; [exact H2|].
  split; [exact H3|].
  split; [exact H4|].
  split; [exact H5|].
  exact (first_set_is_first_evicted 3 cache3 [("a"%string, 1); ("b"%string, 2); ("c"%string, 3)] "d"%string 4 H1 H2 H3 H4 H5).
Defined.

Lemma untouched_new_key_is_next_victim_witness :
  (1 ≤ 3) ∧
  (reachable 3 (run read_all cache3)) ∧
  (LfuDictCache.__len__ (run read_all cache3) = 3) ∧
  (∀ k f, _freq (run read_all cache3) !! k = Some f → 2 ≤ f) ∧
  ("d"%string ∉ PyDict.keys (_values (run read_all cache3))) ∧
  ("e"%string ∉ PyDict.keys (_values (run read_all cache3))) ∧
  ("d"%string ≠ "e"%string) ∧
  _values (run [Set_ "d"%string 4; Set_ "e"%string 5] (run read_all cache3))
  = PyDict.remove "d"%string (_values (run [Set_ "d"%string 4] (run read_all cache3)))
    ++ [("e"%string, 5)].
Proof.
  assert (1 ≤ 3) as H1.
  { lia. }
  assert (reachable 3 (run read_all cache3)) as H2.
  { exists cache3, read_all; split; reflexivity. }
  assert (LfuDictCache.__len__ (run read_all cache3) = 3) as H3.
  { reflexivity. }
  assert (∀ k f, _freq (run read_all cache3) !! k = Some f → 2 ≤ f) as H4.
  { change (map_Forall (λ (_ : string) f, 2 ≤ f) (_freq (run read_all cache3))); refine (bool_decide_unpack _ _); vm_compute; exact I. }
  assert ("d"%string ∉ PyDict.keys (_values (run read_all cache3))) as H5.
  { refine (bool_decide_unpack _ _); vm_compute; exact I. }
  assert ("e"%string ∉ PyDict.keys (_values (run read_all cache3))) as H6.
  { refine (bool_decide_unpack _ _); vm_compute; exact I. }
  assert ("d"%string ≠ "e"%string) as H7.
  { discriminate. }
  split; [exact H1|].
  split; [exact H2|].
  split; [exact H3|].
  split; [exact H4|].
  split; [exact H5|].
  split; [exact H6|].
  split; [exact H7|].
  exact (untouched_new_key_is_next_victim 3 (run read_all cache3) "d"%string "e"%string 4 5 H1 H2 H3 H4 H5 H6 H7).
Defined.

Lemma count_grows_by_number_of_touches_witness :
  (reachable 3 full3) ∧
  (_freq full3 !! "a"%string = Some 1) ∧
  (∀ n, "a"%string ∈ PyDict.keys (_values (run (take n [Get "a"%string; Set_ "b"%string 5; Set_ "a"%string 6]) full3))) ∧
  _freq (run [Get "a"%string; Set_ "b"%string 5; Set_ "a"%string 6] full3) !! "a"%string
  = Some (1 + Z.of_nat (length (touches_of "a"%string [Get "a"%string; Set_ "b"%string 5; Set_ "a"%string 6]))).
Proof.
  assert (reachable 3 full3) as H1.
  { exists cache3, prepare; split; reflexivity. }
  assert (_freq full3 !! "a"%string = Some 1) as H2.
  { vm_compute; reflexivity. }
  assert (∀ n, "a"%string ∈ PyDict.keys (_values (run (take n [Get "a"%string; Set_ "b"%string 5; Set_ "a"%string 6]) full3))) as H3.
  { intros [|[|[|[|n]]]]; refine (bool_decide_unpack _ _); vm_compute; exact I. }
  split; [exact H1|].
  split; [exact H2|].
  split; [exact H3|].
  exact (count_grows_by_number_of_touches 3 full3 [Get "a"%string; Set_ "b"%string 5; Set_ "a"%string 6] "a"%string 1 H1 H2 H3).
Defined.

Lemma len_counts_every_structure_witness :
  (reachable 3 full3) ∧
  LfuDictCache.__len__ full3 = Z.of_nat (size (_freq full3)) ∧
  LfuDictCache.__len__ full3 = Z.of_nat (bucket_total (_freq_to_lru full3)) ∧
  bucket_keys (_freq_to_lru full3) ≡ₚ PyDict.keys (_values full3).
Proof.
  assert (reachable 3 full3) as H1.
  { exists cache3, prepare; split; reflexivity. }
  split; [exact H1|].
  exact (len_counts_every_structure 3 full3 H1).
Defined.
